(** * flute: the packaging script [setup.py]

    A shallow embedding of the build script of the [flute-kernel]
    distribution and the properties its description states about it.

    The script is a short sequence of helper functions that read the
    environment (the CUDA toolchain, the installed framework, a few files
    and one directory) and hand the collected values to [setup].  The
    embedding keeps that shape:

    - Python [str] values are Rocq [string]s; a character is a code point
      below 256;
    - the things the script reads are fields of a [World] record;
    - every helper is a computation in a small monad [M] that records the
      external operations it performs (process launches, file opens,
      directory globs) and ends in a value, a raised exception, or an
      exhausted recursion budget, which under the interpreter is the
      exception [RecursionError];
    - the two library functions the script relies on for its results,
      [packaging.version.parse] and [glob.glob], are modelled in their own
      modules. *)

From Stdlib Require Import Ascii NArith DecimalString.
From Stdlib Require String.
From stdpp Require Import gmap strings list.

(** ** Python strings *)

Module PyStr.

Definition chr_eqb (a b : ascii) : bool := Ascii.eqb a b.
#[global] Arguments chr_eqb : simpl never.

(** [str.isspace] on one character: the code points below 256 for which
    CPython's [Py_UNICODE_ISSPACE] holds.  [str.split()], [str.strip()]
    and the regular-expression class [\s] all use this set. *)
Definition isspace (c : ascii) : bool :=
  let n := N_of_ascii c in
  ((9 <=? n) && (n <=? 13) || (28 <=? n) && (n <=? 32)
   || (n =? 133) || (n =? 160))%N.
#[global] Arguments isspace : simpl never.

(** ['0' <= c <= '9'] *)
Definition isdigit (c : ascii) : bool :=
  let n := N_of_ascii c in ((48 <=? n) && (n <=? 57))%N.
#[global] Arguments isdigit : simpl never.

Fixpoint lstrip (s : string) : string :=
  match s with
  | EmptyString => EmptyString
  | String c s' => if isspace c then lstrip s' else s
  end.

Fixpoint rstrip (s : string) : string :=
  match s with
  | EmptyString => EmptyString
  | String c s' =>
      match rstrip s' with
      | EmptyString => if isspace c then EmptyString else String c EmptyString
      | r => String c r
      end
  end.

(** [s.strip()] *)
Definition strip (s : string) : string := rstrip (lstrip s).

(** [s.split(sep)] for a separator of one character: never empty, and
    adjacent separators delimit empty strings. *)
Fixpoint split_on (sep : ascii) (s : string) : list string :=
  match s with
  | EmptyString => [EmptyString]
  | String c s' =>
      if chr_eqb c sep then EmptyString :: split_on sep s'
      else match split_on sep s' with
           | w :: ws => String c w :: ws
           | [] => [String c EmptyString]
           end
  end.

(** [s.split()] without a separator: the maximal runs of non-whitespace
    characters.  The auxiliary function also tells whether the string
    starts inside a word, so that a character can be put in front of it. *)
Fixpoint split_go (s : string) : bool * list string :=
  match s with
  | EmptyString => (false, [])
  | String c s' =>
      let '(inword, ws) := split_go s' in
      if isspace c then (false, ws)
      else (true, match inword, ws with
                  | true, w :: ws' => String c w :: ws'
                  | _, _ => String c EmptyString :: ws
                  end)
  end.

Definition split (s : string) : list string := snd (split_go s).

(** [s.startswith(p)] *)
Definition startswith (s p : string) : bool := String.prefix p s.
#[global] Arguments startswith : simpl never.

(** A literal prefix, removed: [Some (s[len(p):])] when [s.startswith(p)]. *)
Fixpoint strip_prefix (p s : string) : option string :=
  match p, s with
  | EmptyString, _ => Some s
  | String a p', String b s' =>
      if chr_eqb a b then strip_prefix p' s' else None
  | String _ _, EmptyString => None
  end.

(** [s.endswith(p)] *)
Fixpoint endswith (s p : string) : bool :=
  if String.eqb s p then true
  else match s with
       | EmptyString => false
       | String _ s' => endswith s' p
       end.

(** [s.replace(old, new)] for [old] of one character. *)
Fixpoint replace (old : ascii) (new : string) (s : string) : string :=
  match s with
  | EmptyString => EmptyString
  | String c s' =>
      if chr_eqb c old then new +:+ replace old new s'
      else String c (replace old new s')
  end.

(** [s[:n]] *)
Definition slice_to (n : nat) (s : string) : string := String.substring 0 n s.

(** [sep.join(l)] *)
Definition join (sep : string) (l : list string) : string := String.concat sep l.

(** [l.index(x)]; [None] stands for the [ValueError] of a missing item. *)
Fixpoint index (x : string) (l : list string) : option nat :=
  match l with
  | [] => None
  | y :: l' => if String.eqb y x then Some 0 else S <$> index x l'
  end.

(** [str(n)] and [int(s)] on naturals and digit strings. *)
Definition str_int (n : N) : string := NilZero.string_of_uint (N.to_uint n).

Definition digit_val (c : ascii) : N := (N_of_ascii c - 48)%N.

Definition int (s : string) : N :=
  (fix go (acc : N) (s : string) : N :=
     match s with
     | EmptyString => acc
     | String c s' => go (acc * 10 + digit_val c)%N s'
     end) 0%N s.

(** ASCII lower-casing, as [str.lower] acts on the letters [A]-[Z]. *)
Definition lower_chr (c : ascii) : ascii :=
  let n := N_of_ascii c in
  if ((65 <=? n) && (n <=? 90))%N then ascii_of_N (n + 32) else c.

Fixpoint lower (s : string) : string :=
  match s with
  | EmptyString => EmptyString
  | String c s' => String (lower_chr c) (lower s')
  end.

End PyStr.

(** ** [os.path] on POSIX *)

Module OsPath.

Definition sep : ascii := "/".

(** One step of the loop of [posixpath.join]. *)
Definition join2 (path b : string) : string :=
  if PyStr.startswith b "/" then b
  else if String.eqb path "" || PyStr.endswith path "/" then path +:+ b
  else path +:+ "/" +:+ b.

(** [os.path.join(a, *p)] *)
Definition join (a : string) (p : list string) : string :=
  fold_left join2 p a.

(** [p[:p.rfind('/') + 1]] *)
Fixpoint head_of (p : string) : string :=
  match p with
  | EmptyString => EmptyString
  | String c p' =>
      match head_of p' with
      | EmptyString => if PyStr.chr_eqb c sep then String c EmptyString else EmptyString
      | h => String c h
      end
  end.

Fixpoint all_sep (s : string) : bool :=
  match s with
  | EmptyString => true
  | String c s' => PyStr.chr_eqb c sep && all_sep s'
  end.

(** [s.rstrip('/')] *)
Fixpoint rstrip_sep (s : string) : string :=
  match s with
  | EmptyString => EmptyString
  | String c s' =>
      match rstrip_sep s' with
      | EmptyString => if PyStr.chr_eqb c sep then EmptyString else String c EmptyString
      | r => String c r
      end
  end.

(** [os.path.dirname(p)] *)
Definition dirname (p : string) : string :=
  let head := head_of p in
  if negb (String.eqb head "") && negb (all_sep head) then rstrip_sep head
  else head.

(** [p[p.rfind('/') + 1:]], the second component of [os.path.split]. *)
Fixpoint basename (p : string) : string :=
  match p with
  | EmptyString => EmptyString
  | String c p' =>
      match head_of p' with
      | EmptyString => if PyStr.chr_eqb c sep then p' else p
      | _ => basename p'
      end
  end.

(** [os.path.curdir] *)
Definition curdir : string := ".".

End OsPath.

(** ** [packaging.version]

    The script turns two strings into [Version] objects and reads them back:
    the token after [release] in the compiler's banner, and the version of
    the installed framework.  [Version] follows the data model of the
    library (PEP 440): epoch, release numbers, pre-, post- and
    development-release markers, local label.  [parse] implements the
    library's regular expression [VERSION_PATTERN], which is deterministic:
    every optional group starts with characters that no later group can
    start with, so a greedy left-to-right reading finds the match when
    there is one.  A string outside the pattern is an [InvalidVersion], as
    in the library since its release 22. *)

Module Packaging.

Inductive local_part : Type :=
| LInt (n : N)
| LStr (s : string).

Record Version : Type := mkVersion {
  epoch : N;
  release : list N;
  pre : option (string * N);
  post : option N;
  dev : option N;
  local : option (list local_part)
}.

(** [Version.major] and [Version.minor]: the first two release numbers,
    0 when the release is shorter. *)
Definition major (v : Version) : N := nth 0 (release v) 0%N.
Definition minor (v : Version) : N := nth 1 (release v) 0%N.

Definition str_local_part (p : local_part) : string :=
  match p with
  | LInt n => PyStr.str_int n
  | LStr s => s
  end.

(** [Version.__str__] *)
Definition to_str (v : Version) : string :=
  (if (epoch v =? 0)%N then "" else PyStr.str_int (epoch v) +:+ "!")
  +:+ PyStr.join "." (map PyStr.str_int (release v))
  +:+ match pre v with
      | Some (l, n) => l +:+ PyStr.str_int n
      | None => ""
      end
  +:+ match post v with
      | Some n => ".post" +:+ PyStr.str_int n
      | None => ""
      end
  +:+ match dev v with
      | Some n => ".dev" +:+ PyStr.str_int n
      | None => ""
      end
  +:+ match local v with
      | Some ps => "+" +:+ PyStr.join "." (map str_local_part ps)
      | None => ""
      end.

(** *** Reading the pattern *)

(** The separator class [[-_.]]. *)
Definition is_sep (c : ascii) : bool :=
  PyStr.chr_eqb c "-" || PyStr.chr_eqb c "_" || PyStr.chr_eqb c ".".

(** The class [[a-z0-9]] of local labels (after lower-casing). *)
Definition is_local_chr (c : ascii) : bool :=
  let n := N_of_ascii c in
  PyStr.isdigit c || ((97 <=? n) && (n <=? 122))%N.

(** [[0-9]*]: the longest prefix of digits, and what follows it. *)
Fixpoint span_digits (s : string) : string * string :=
  match s with
  | EmptyString => (EmptyString, EmptyString)
  | String c s' =>
      if PyStr.isdigit c
      then let '(d, r) := span_digits s' in (String c d, r)
      else (EmptyString, s)
  end.

(** [[-_.]?] *)
Definition skip_sep (s : string) : string :=
  match s with
  | String c s' => if is_sep c then s' else s
  | EmptyString => s
  end.

Definition starts_with_digit (s : string) : bool :=
  match s with
  | String c _ => PyStr.isdigit c
  | EmptyString => false
  end.

(** [(?:(?P<epoch>[0-9]+)!)?] *)
Definition read_epoch (s : string) : N * string :=
  match span_digits s with
  | (String c d, String "!" r) => (PyStr.int (String c d), r)
  | _ => (0%N, s)
  end.

(** [[0-9]+(?:\.[0-9]+)*], entered with the digits read so far in [cur]. *)
Fixpoint release_go (cur : string) (s : string) : list string * string :=
  match s with
  | EmptyString => ([cur], EmptyString)
  | String c s' =>
      if PyStr.isdigit c then release_go (cur +:+ String c "") s'
      else if PyStr.chr_eqb c "." && starts_with_digit s'
      then let '(l, r) := release_go "" s' in (cur :: l, r)
      else ([cur], s)
  end.

Definition read_release (s : string) : option (list N * string) :=
  if starts_with_digit s
  then let '(l, r) := release_go "" s in Some (map PyStr.int l, r)
  else None.

(** The first of the labels that starts the string, with its normal form
    ([_parse_letter_version]). *)
Fixpoint read_label (labels : list (string * string)) (s : string)
  : option (string * string) :=
  match labels with
  | [] => None
  | (l, norm) :: labels' =>
      match PyStr.strip_prefix l s with
      | Some r => Some (norm, r)
      | None => read_label labels' s
      end
  end.

(** [[-_.]?(label)[-_.]?([0-9]+)?]: the normalised label, its number (0
    when absent) and the rest; [None] when the group does not match here. *)
Definition read_marker (labels : list (string * string)) (s : string)
  : option (string * N * string) :=
  match read_label labels (skip_sep s) with
  | Some (l, r) =>
      let '(d, r') := span_digits (skip_sep r) in
      Some (l, PyStr.int d, r')
  | None => None
  end.

Definition pre_labels : list (string * string) :=
  [("alpha", "a"); ("a", "a"); ("beta", "b"); ("b", "b"); ("preview", "rc");
   ("pre", "rc"); ("c", "rc"); ("rc", "rc")].
Definition post_labels : list (string * string) :=
  [("post", "post"); ("rev", "post"); ("r", "post")].
Definition dev_labels : list (string * string) := [("dev", "dev")].

Definition read_pre (s : string) : option (string * N) * string :=
  match read_marker pre_labels s with
  | Some (l, n, r) => (Some (l, n), r)
  | None => (None, s)
  end.

(** The post release: [-N], or a marker. *)
Definition read_post (s : string) : option N * string :=
  match s with
  | String "-" s' =>
      if starts_with_digit s'
      then let '(d, r) := span_digits s' in (Some (PyStr.int d), r)
      else match read_marker post_labels s with
           | Some (_, n, r) => (Some n, r)
           | None => (None, s)
           end
  | _ => match read_marker post_labels s with
         | Some (_, n, r) => (Some n, r)
         | None => (None, s)
         end
  end.

Definition read_dev (s : string) : option N * string :=
  match read_marker dev_labels s with
  | Some (_, n, r) => (Some n, r)
  | None => (None, s)
  end.

(** [[a-z0-9]+(?:[-_.][a-z0-9]+)*] up to the end of the string, split at
    the separators, entered with the characters of the current part. *)
Fixpoint local_go (cur : string) (s : string) : option (list string) :=
  match s with
  | EmptyString => if String.eqb cur "" then None else Some [cur]
  | String c s' =>
      if is_local_chr c then local_go (cur +:+ String c "") s'
      else if is_sep c && negb (String.eqb cur "")
      then (cons cur) <$> local_go "" s'
      else None
  end.

Fixpoint all_digits (s : string) : bool :=
  match s with
  | EmptyString => true
  | String c s' => PyStr.isdigit c && all_digits s'
  end.

(** [_parse_local_version] on one part. *)
Definition local_of (part : string) : local_part :=
  if all_digits part then LInt (PyStr.int part) else LStr part.

(** [(?:\+(?P<local>...))?] followed by the end of the string. *)
Definition read_local (s : string) : option (option (list local_part)) :=
  match s with
  | EmptyString => Some None
  | String "+" s' => (fun ps => Some (map local_of ps)) <$> local_go "" s'
  | _ => None
  end.

(** [packaging.version.parse]; [None] stands for [InvalidVersion]. *)
Definition parse (version : string) : option Version :=
  let s := PyStr.lower (PyStr.strip version) in
  let s := match s with String "v" s' => s' | _ => s end in
  let '(e, s) := read_epoch s in
  match read_release s with
  | None => None
  | Some (rel, s) =>
      let '(p, s) := read_pre s in
      let '(po, s) := read_post s in
      let '(d, s) := read_dev s in
      match read_local s with
      | None => None
      | Some l =>
          Some {| epoch := e; release := rel; pre := p; post := po;
                  dev := d; local := l |}
      end
  end.

End Packaging.

(** ** [re.search] with the pattern of [find_version]

    The pattern, under [re.M], reads: at the start of the text or right
    after a newline, the literal [__version__ = ], a quote character
    (single or double), the longest run of characters that are not quote
    characters (group 1, newlines included), and a quote character again
    (single or double, not necessarily the opening one). *)

Module Re.

Definition nl : ascii := "010".
Definition dquote : ascii := "034".
Definition squote : ascii := "039".

Definition is_quote (c : ascii) : bool :=
  PyStr.chr_eqb c squote || PyStr.chr_eqb c dquote.
#[global] Arguments is_quote : simpl never.

(** The run of non-quote characters up to the next quote character: the
    group and what follows the closing quote. *)
Fixpoint read_group (s : string) : option (string * string) :=
  match s with
  | EmptyString => None
  | String c s' =>
      if is_quote c then Some (EmptyString, s')
      else match read_group s' with
           | Some (g, r) => Some (String c g, r)
           | None => None
           end
  end.

Definition version_literal : string := "__version__ = ".

(** The pattern without its anchor, matched at the start of [s]. *)
Definition match_version (s : string) : option string :=
  match PyStr.strip_prefix version_literal s with
  | Some (String q r) => if is_quote q then fst <$> read_group r else None
  | _ => None
  end.

(** The scan of [re.search]: positions from left to right, the anchor
    holding where [bol] says the position starts a line. *)
Fixpoint search_from (bol : bool) (s : string) : option string :=
  match (if bol then match_version s else None) with
  | Some g => Some g
  | None =>
      match s with
      | EmptyString => None
      | String c s' => search_from (PyStr.chr_eqb c nl) s'
      end
  end.

(** [re.search(pattern, text, re.M)], reduced to [group(1)] of the match. *)
Definition search_version (text : string) : option string :=
  search_from true text.

End Re.

(** ** [glob.glob]

    For a pathname whose directory part is literal and whose last component
    is a pattern: the entries of the directory, in the order the system
    lists them, without the hidden ones unless the pattern is hidden
    itself, kept when [fnmatch] accepts them, each joined to the directory.
    A directory that cannot be listed gives no entry and no error. *)

Module Glob.

(** [fnmatch.fnmatchcase] for patterns of literal characters, [*] and
    [?] (no bracket expression). *)
Fixpoint fnmatch (pat name : string) : bool :=
  match pat with
  | EmptyString => String.eqb name ""
  | String "*" pat' =>
      (fix star (n : string) : bool :=
         fnmatch pat' n
         || match n with
            | EmptyString => false
            | String _ n' => star n'
            end) name
  | String "?" pat' =>
      match name with
      | String _ n' => fnmatch pat' n'
      | EmptyString => false
      end
  | String c pat' =>
      match name with
      | String d n' => PyStr.chr_eqb c d && fnmatch pat' n'
      | EmptyString => false
      end
  end.

(** [glob._ishidden] *)
Definition ishidden (p : string) : bool := PyStr.startswith p ".".

Definition glob1 (entries : option (list string)) (pattern : string)
  : list string :=
  let names := default [] entries in
  let names :=
    if ishidden pattern then names
    else filter (fun x => negb (ishidden x) = true) names in
  filter (fun x => fnmatch pattern x = true) names.

Definition glob (listdir : string -> option (list string))
  (pathname : string) : list string :=
  let dirname := OsPath.dirname pathname in
  let basename := OsPath.basename pathname in
  if String.eqb dirname ""
  then glob1 (listdir OsPath.curdir) basename
  else map (fun name => OsPath.join dirname [name])
           (glob1 (listdir dirname) basename).

End Glob.

(** ** The environment and the effects of the script *)

(** The exceptions the script can end with. *)
Inductive exn : Type :=
| AssertionError (msg : string)
| ValueError
| IndexError
| InvalidVersion (version : string)
| RuntimeError (msg : string)
| FileNotFoundError (path : string)
| CalledProcessError (argv : list string)
| RecursionError.

(** What the script reads.  [files] gives the text that [open(path).read()]
    returns for the paths that can be opened; [listdir] gives the entries of
    the directories that can be listed, in the order the system yields
    them; [check_output] gives what running a command prints, or the
    exception the launch ends with. *)
Record World : Type := mkWorld {
  CUDA_HOME : option string;
  __file__ : string;
  torch_version : string;
  check_output : list string -> exn + string;
  files : gmap string string;
  listdir : gmap string (list string);
  find_packages : list string
}.

(** The external operations, in the order they are performed. *)
Inductive event : Type :=
| EvExec (argv : list string)
| EvOpen (path : string)
| EvGlob (pathname : string)
| EvFindPackages.

(** How a computation ends: with a value, with an exception, or at a call
    that goes deeper than the budget of nested calls it was run with.  The
    script puts no bound on its recursion; the interpreter does, and the
    budget stands for the room its limit on the call stack leaves: what it
    makes of [Deeper] is [at_recursion_limit] below. *)
Inductive outcome (A : Type) : Type :=
| Ok (a : A)
| Raise (e : exn)
| Deeper.
Arguments Ok {A} a.
Arguments Raise {A} e.
Arguments Deeper {A}.

(** A computation: the operations performed, and the outcome. *)
Definition M (A : Type) : Type := list event * outcome A.

Definition ret {A} (a : A) : M A := ([], Ok a).

Definition raise {A} (e : exn) : M A := ([], Raise e).

Definition emit (e : event) : M unit := ([e], Ok tt).

Definition bind {A B} (m : M A) (k : A -> M B) : M B :=
  match m with
  | (t, Ok a) => let '(t', r) := k a in (t ++ t', r)
  | (t, Raise e) => (t, Raise e)
  | (t, Deeper) => (t, Deeper)
  end.

#[global] Instance M_ret : MRet M := @ret.
#[global] Instance M_bind : MBind M := fun A B k m => bind m k.

Definition trace {A} (m : M A) : list event := fst m.
Definition result {A} (m : M A) : outcome A := snd m.

(** [l[i]] for [i >= 0] *)
Definition getitem (l : list string) (i : nat) : M string :=
  match l !! i with
  | Some x => ret x
  | None => raise IndexError
  end.

(** [with open(path) as f: f.read()].  A path outside [files] is one that
    [open] raises for; the exception is given as [FileNotFoundError]
    whatever the reason ([open] has others, for a directory or a file
    without read permission), so statements about a failed [open] are made
    for any exception it ends with. *)
Definition open_read (w : World) (path : string) : M string :=
  emit (EvOpen path);;
  match files w !! path with
  | Some text => ret text
  | None => raise (FileNotFoundError path)
  end.

(** [subprocess.check_output(argv, universal_newlines=True)] *)
Definition run_check_output (w : World) (argv : list string) : M string :=
  emit (EvExec argv);;
  match check_output w argv with
  | inr out => ret out
  | inl e => raise e
  end.

(** [glob.glob(pathname)] *)
Definition glob (w : World) (pathname : string) : M (list string) :=
  emit (EvGlob pathname);;
  ret (Glob.glob (fun d => listdir w !! d) pathname).

(** [packaging.version.parse(version)] *)
Definition parse (version : string) : M Packaging.Version :=
  match Packaging.parse version with
  | Some v => ret v
  | None => raise (InvalidVersion version)
  end.

(** ** The script *)

Definition ROOT_DIR (w : World) : string := OsPath.dirname (__file__ w).
Definition MAIN_CUDA_VERSION : string := "12.1".

Definition DISTRIBUTION_NAME : string := "flute-kernel".
Definition LIBRARY_NAME : string := "flute".
Definition CUTLASS_PATH : string := "/workspace/cutlass/".

Definition get_nvcc_cuda_version (w : World) : M Packaging.Version :=
  match CUDA_HOME w with
  | None => raise (AssertionError "CUDA_HOME is not set")
  | Some home =>
      nvcc_output ← run_check_output w [OsPath.join home ["bin/nvcc"]; "-V"];
      let output := PyStr.split nvcc_output in
      match PyStr.index "release" output with
      | None => raise ValueError
      | Some i =>
          let release_idx := i + 1 in
          token ← getitem output release_idx;
          number ← getitem (PyStr.split_on "," token) 0;
          nvcc_cuda_version ← parse number;
          ret nvcc_cuda_version
      end
  end.

Definition get_path (w : World) (filepath : list string) : string :=
  OsPath.join (ROOT_DIR w) filepath.

Definition find_version (w : World) (filepath : string) : M string :=
  text ← open_read w filepath;
  match Re.search_version text with
  | Some group1 => ret group1
  | None => raise (RuntimeError "Unable to find version string.")
  end.

Definition get_version (w : World) : M string :=
  version ← find_version w (get_path w [LIBRARY_NAME; "__init__.py"]);
  nvcc ← get_nvcc_cuda_version w;
  let cuda_version := Packaging.to_str nvcc in
  let cuda_version_str := PyStr.slice_to 3 (PyStr.replace "." "" cuda_version) in
  torch_version_raw ← parse (torch_version w);
  let torch_version_str :=
    PyStr.str_int (Packaging.major torch_version_raw) +:+ "."
    +:+ PyStr.str_int (Packaging.minor torch_version_raw) in
  ret (version +:+ "+cu" +:+ cuda_version_str +:+ "torch" +:+ torch_version_str).

(** The arguments [CUDAExtension] is called with. *)
Record Extension : Type := mkExtension {
  ext_name : string;
  sources : list string;
  extra_compile_args : list (string * list string);
  extra_link_args : list string;
  include_dirs : list string
}.

Definition get_extensions (w : World) : M (list Extension) :=
  let extra_link_args := [] in
  let extra_compile_args :=
    [("cxx", ["-std=c++17"]);
     ("nvcc", ["-gencode=arch=compute_80,code=sm_80";
               "-gencode=arch=compute_86,code=sm_86";
               "-gencode=arch=compute_89,code=sm_89";
               "-gencode=arch=compute_90,code=sm_90";
               "-gencode=arch=compute_90,code=compute_90";
               "-std=c++17"])] in
  let include_dirs :=
    [OsPath.join CUTLASS_PATH ["include"];
     OsPath.join CUTLASS_PATH ["tools/util/include"]] in
  let this_dir := OsPath.dirname OsPath.curdir in
  let extensions_dir := OsPath.join this_dir [LIBRARY_NAME; "csrc"] in
  cpp ← glob w (OsPath.join extensions_dir ["*.cpp"]);
  cu ← glob w (OsPath.join extensions_dir ["*.cu"]);
  let sources := cpp ++ cu in
  let ext_modules :=
    [{| ext_name := LIBRARY_NAME +:+ "._C";
        sources := sources;
        extra_compile_args := extra_compile_args;
        extra_link_args := extra_link_args;
        include_dirs := include_dirs |}] in
  ret ext_modules.

(** The [for] loop of [_read_requirements], with the recursive call as a
    parameter. *)
Fixpoint resolve_lines (rec : string -> M (list string))
  (requirements : list string) (resolved_requirements : list string)
  : M (list string) :=
  match requirements with
  | [] => ret resolved_requirements
  | line :: requirements' =>
      if PyStr.startswith line "-r "
      then
        filename ← getitem (PyStr.split line) 1;
        included ← rec filename;
        resolve_lines rec requirements' (resolved_requirements ++ included)
      else
        resolve_lines rec requirements' (resolved_requirements ++ [line])
  end.

(** [_read_requirements], run with room for [depth] nested calls. *)
Fixpoint _read_requirements (depth : nat) (w : World) (filename : string)
  : M (list string) :=
  match depth with
  | 0 => ([], Deeper)
  | S depth' =>
      text ← open_read w (get_path w [filename]);
      let requirements := PyStr.split_on Re.nl (PyStr.strip text) in
      resolve_lines (_read_requirements depth' w) requirements []
  end.

Definition get_requirements (depth : nat) (w : World) : M (list string) :=
  _read_requirements depth w "requirements.txt".

(** The keyword arguments of the call of [setup], evaluated from left to
    right. *)
Record SetupArgs : Type := mkSetupArgs {
  name : string;
  version : string;
  packages : list string;
  include_package_data : bool;
  ext_modules : list Extension;
  install_requires : list string;
  cmdclass : list (string * string)
}.

Definition setup_call (depth : nat) (w : World) : M SetupArgs :=
  version ← get_version w;
  packages ← (emit EvFindPackages;; ret (find_packages w));
  ext_modules ← get_extensions w;
  install_requires ← get_requirements depth w;
  ret {| name := DISTRIBUTION_NAME;
         version := version;
         packages := packages;
         include_package_data := true;
         ext_modules := ext_modules;
         install_requires := install_requires;
         cmdclass := [("build_ext", "BuildExtension")] |}.

(** The interpreter bounds the depth of the call stack
    ([sys.getrecursionlimit()], 1000 frames unless it was changed): the
    call that would go beyond the bound raises [RecursionError] instead of
    running.  The script catches no exception, so a computation that is
    [Deeper] with the room the interpreter leaves it is a run that ends
    with that exception, after the operations performed so far. *)
Definition at_recursion_limit {A : Type} (m : M A) : M A :=
  match m with
  | (t, Deeper) => (t, Raise RecursionError)
  | _ => m
  end.

(** [int(text)] refuses a decimal text of more than this many digits with
    a plain [ValueError] ([sys.get_int_max_str_digits()], since CPython
    3.11).  [Packaging.parse] reads numbers of any length: it stands for
    the library on the texts that have no longer run of digits. *)
Definition int_max_str_digits : nat := 4300.

(** ** Vocabulary of the statements *)

(** [c in s] for a character. *)
Fixpoint mem_chr (c : ascii) (s : string) : bool :=
  match s with
  | EmptyString => false
  | String d s' => PyStr.chr_eqb c d || mem_chr c s'
  end.

(** No character of [s] is a quote character. *)
Fixpoint quote_free (s : string) : bool :=
  match s with
  | EmptyString => true
  | String c s' => negb (Re.is_quote c) && quote_free s'
  end.

(** Every character of [s] is whitespace. *)
Fixpoint all_space (s : string) : bool :=
  match s with
  | EmptyString => true
  | String c s' => PyStr.isspace c && all_space s'
  end.

(** The last character of a string. *)
Fixpoint last_chr (s : string) : option ascii :=
  match s with
  | EmptyString => None
  | String c EmptyString => Some c
  | String _ s' => last_chr s'
  end.

(** The text made of the given lines, each one ended by a newline. *)
Fixpoint unlines (ls : list string) : string :=
  match ls with
  | [] => EmptyString
  | l :: ls' => l +:+ String Re.nl (unlines ls')
  end.

(** A line that assigns [v] to [__version__] between the quote characters
    [q1] and [q2], starting in its first column. *)
Definition version_line (q1 : ascii) (v : string) (q2 : ascii) : string :=
  Re.version_literal +:+ String q1 (v +:+ String q2 EmptyString).

(** [text] has, right after [pre], an assignment that the pattern of
    [find_version] matches with [v] as its group: [pre] is empty or ends
    with a newline, and what follows it is [__version__ = ], a quote
    character, [v], which has no quote character, and a quote character. *)
Definition assigned_after (text pre v : string) : Prop :=
  exists q1 q2 post,
    text = pre +:+ version_line q1 v q2 +:+ post
    /\ (pre = "" \/ exists p, pre = p +:+ String Re.nl "")
    /\ Re.is_quote q1 = true /\ Re.is_quote q2 = true
    /\ quote_free v = true.

(** The line starts with the literal [__version__ = ] and a quote
    character, that is, the pattern of [find_version] matches a prefix of
    the line or runs over its end. *)
Definition starts_assignment (l : string) : bool :=
  match PyStr.strip_prefix Re.version_literal l with
  | Some (String q _) => Re.is_quote q
  | _ => false
  end.

(** A line (a string without newline) that does not start an assignment. *)
Definition other_line (l : string) : Prop :=
  mem_chr Re.nl l = false /\ starts_assignment l = false.

(** [s] is [base] followed by [+cu], three digits, [torch], and two
    numbers separated by a dot. *)
Definition three_digit_form (base s : string) : Prop :=
  exists (d1 d2 d3 : ascii) (major minor : N),
    PyStr.isdigit d1 = true /\ PyStr.isdigit d2 = true
    /\ PyStr.isdigit d3 = true
    /\ s = base +:+ "+cu"
           +:+ String d1 (String d2 (String d3
                 ("torch" +:+ PyStr.str_int major +:+ "."
                  +:+ PyStr.str_int minor))).

(** The release-only version with the given numbers. *)
Definition release_version (numbers : list N) : Packaging.Version :=
  {| Packaging.epoch := 0; Packaging.release := numbers;
     Packaging.pre := None; Packaging.post := None; Packaging.dev := None;
     Packaging.local := None |}.

(** A line of a requirements file that includes another file. *)
Definition is_directive (line : string) : bool := PyStr.startswith line "-r ".

(** The files that a chain of two requirements files including each other
    opens, for a given number of nested calls. *)
Fixpoint cycle_opens (path_a path_b : string) (depth : nat) : list event :=
  match depth with
  | 0 => []
  | S depth' => EvOpen path_a :: cycle_opens path_b path_a depth'
  end.

(** What [glob.glob(pathname)] returns in [w]. *)
Definition globbed (w : World) (pathname : string) : list string :=
  Glob.glob (fun d => listdir w !! d) pathname.

(** An operation that globs. *)
Definition is_glob (e : event) : bool :=
  match e with
  | EvGlob _ => true
  | _ => false
  end.

(** ** Sample environments *)

(** What [nvcc -V] prints for the toolkit 12.1. *)
Definition nvcc_banner : string :=
"nvcc: NVIDIA (R) Cuda compiler driver
Copyright (c) 2005-2023 NVIDIA Corporation
Built on Mon_Apr__3_17:16:06_PDT_2023
Cuda compilation tools, release 12.1, V12.1.105
Build cuda_12.1.r12.1/compiler.32688072_0
".

(** A checkout built with the toolkit 12.1 and the framework 2.3.1: the
    library is at version 1.0.0, its requirements include a second file
    and have an empty line in the middle, and the source directory holds
    two C++ files, a CUDA file and a header. *)
Definition sample_world : World := {|
  CUDA_HOME := Some "/usr/local/cuda";
  __file__ := "setup.py";
  torch_version := "2.3.1";
  check_output := fun _ => inr nvcc_banner;
  files :=
    {[ "flute/__init__.py" := "__version__ = '1.0.0'
";
       "requirements.txt" := "numpy
-r other.txt

torch
";
       "other.txt" := "ninja
packaging
" ]};
  listdir := {[ "flute/csrc" := ["qgemm.cu"; "bindings.cpp"; "config.h"; "utils.cpp"] ]};
  find_packages := ["flute"]
|}.

(** The sample environment with one of its parts replaced. *)
Definition with_cuda_home (home : option string) (w : World) : World :=
  {| CUDA_HOME := home; __file__ := __file__ w;
     torch_version := torch_version w; check_output := check_output w;
     files := files w; listdir := listdir w;
     find_packages := find_packages w |}.

Definition with_nvcc_output (out : string) (w : World) : World :=
  {| CUDA_HOME := CUDA_HOME w; __file__ := __file__ w;
     torch_version := torch_version w; check_output := fun _ => inr out;
     files := files w; listdir := listdir w;
     find_packages := find_packages w |}.

Definition with_file (path text : string) (w : World) : World :=
  {| CUDA_HOME := CUDA_HOME w; __file__ := __file__ w;
     torch_version := torch_version w; check_output := check_output w;
     files := <[path := text]> (files w); listdir := listdir w;
     find_packages := find_packages w |}.

Definition with_listdir (dir : string) (entries : list string) (w : World) : World :=
  {| CUDA_HOME := CUDA_HOME w; __file__ := __file__ w;
     torch_version := torch_version w; check_output := check_output w;
     files := files w; listdir := <[dir := entries]> (listdir w);
     find_packages := find_packages w |}.

(** A toolkit 9.0 in place of 12.1. *)
Definition cuda9_world : World :=
  with_nvcc_output "Cuda compilation tools, release 9.0, V9.0.176" sample_world.

(** A banner with two [release] tokens, the second one followed by the
    token of 12.1. *)
Definition two_release_banner : string :=
  "Cuda compilation tools, release 11.8, release 12.1, V12.1.105".

Definition two_release_world : World :=
  with_nvcc_output two_release_banner sample_world.

(** A version file with two assignments. *)
Definition two_version_text : string :=
  unlines [version_line Re.dquote "0.1" Re.dquote;
           version_line Re.dquote "1.2.3" Re.dquote].

Definition two_version_world : World :=
  with_file "flute/__init__.py" two_version_text sample_world.

(** A version file whose assignment is indented. *)
Definition indented_version_world : World :=
  with_file "flute/__init__.py"
    ("    " +:+ version_line Re.squote "1.0.0" Re.squote) sample_world.

(** A requirements file that includes itself. *)
Definition self_including_world : World :=
  with_file "requirements.txt" "numpy
-r requirements.txt
" sample_world.

(** Two requirements files that include each other. *)
Definition mutually_including_world : World :=
  with_file "requirements.txt" "numpy
-r other.txt
"
    (with_file "other.txt" "ninja
-r requirements.txt
" sample_world).

(** A requirements file with the same line twice. *)
Definition repeated_line_world : World :=
  with_file "requirements.txt" "numpy
torch
numpy
" sample_world.

(** The entries of the source directory in the order the system lists
    them; none when the directory cannot be listed. *)
Definition source_entries (w : World) : list string :=
  default [] (listdir w !! "flute/csrc").

(** An entry that the glob for the extension [ext] picks: it is not
    hidden and it ends in [ext]. *)
Definition picked (ext name : string) : Prop :=
  Glob.ishidden name = false /\ PyStr.endswith name ext = true.

(** The path that the glob returns for an entry of the source directory. *)
Definition source_path (name : string) : string :=
  OsPath.join "flute/csrc" [name].

(** The sample environment with the script at another place. *)
Definition with_script (path : string) (w : World) : World :=
  {| CUDA_HOME := CUDA_HOME w; __file__ := path;
     torch_version := torch_version w; check_output := check_output w;
     files := files w; listdir := listdir w;
     find_packages := find_packages w |}.

(** The sample environment with another version of the framework. *)
Definition with_torch_version (v : string) (w : World) : World :=
  {| CUDA_HOME := CUDA_HOME w; __file__ := __file__ w;
     torch_version := v; check_output := check_output w;
     files := files w; listdir := listdir w;
     find_packages := find_packages w |}.

(** Requirements that include a file of a sub-directory, which includes a
    third file. *)
Definition nested_include_world : World :=
  with_file "requirements.txt" (unlines ["numpy"; "-r sub/base.txt"])
    (with_file "sub/base.txt" (unlines ["ninja"; "-r dev.txt"])
       (with_file "dev.txt" (unlines ["pytest"]) sample_world)).

(** ** Tactics *)

(** The glob of the source directory for one extension: the directory is
    literal, the pattern is a star and the extension. *)
Ltac unfold_source_glob :=
  unfold globbed, Glob.glob;
  match goal with
  | |- context [OsPath.dirname ?p] =>
      let d := eval vm_compute in (OsPath.dirname p) in
      let b := eval vm_compute in (OsPath.basename p) in
      change (OsPath.dirname p) with d;
      change (OsPath.basename p) with b;
      change (String.eqb d "") with false; cbv iota
  end.

(** * Properties of the script *)

(** ** Laws of the monad *)

Section monad_laws.
Context {A B : Type}.
Implicit Types (m : M A) (k : A -> M B).

Lemma result_bind m k :
  result (m ≫= k) =
  match result m with
  | Ok a => result (k a)
  | Raise e => Raise e
  | Deeper => Deeper
  end.
Proof.
  destruct m as [t [a|e|]]; simpl; try reflexivity.
  unfold mbind, M_bind, bind. destruct (k a); reflexivity.
Qed.

Lemma trace_bind m k :
  trace (m ≫= k) =
  trace m ++ match result m with
             | Ok a => trace (k a)
             | _ => []
             end.
Proof.
  destruct m as [t [a|e|]]; simpl; rewrite ?app_nil_r; try reflexivity.
  unfold mbind, M_bind, bind. destruct (k a); reflexivity.
Qed.

Lemma result_bind_ok m k a :
  result m = Ok a -> result (m ≫= k) = result (k a).
Proof. intros H. rewrite result_bind, H. reflexivity. Qed.

End monad_laws.

Lemma bind_assoc {A B C} (m : M A) (f : A -> M B) (g : B -> M C) :
  (m ≫= f) ≫= g = m ≫= (fun x => f x ≫= g).
Proof.
  unfold mbind, M_bind, bind.
  destruct m as [t [a|e|]]; [|reflexivity..].
  destruct (f a) as [t1 [b|e|]]; [|rewrite ?app_nil_r; reflexivity..].
  destruct (g b) as [t2 r]. rewrite app_assoc. reflexivity.
Qed.

Lemma bind_ret_l {A B} (a : A) (k : A -> M B) : ret a ≫= k = k a.
Proof. unfold ret, mbind, M_bind, bind. destruct (k a). reflexivity. Qed.

Lemma bind_ext {A B} (m : M A) (f g : A -> M B) :
  (forall a, f a = g a) -> m ≫= f = m ≫= g.
Proof.
  intros H. unfold mbind, M_bind, bind.
  destruct m as [t [a|e|]]; [rewrite H|..]; reflexivity.
Qed.

Lemma result_getitem l i x : l !! i = Some x -> result (getitem l i) = Ok x.
Proof. unfold getitem. intros ->. reflexivity. Qed.

Lemma result_parse version v :
  Packaging.parse version = Some v -> result (parse version) = Ok v.
Proof. unfold parse. intros ->. reflexivity. Qed.

Lemma result_open_read w path :
  result (open_read w path) =
  match files w !! path with
  | Some text => Ok text
  | None => Raise (FileNotFoundError path)
  end.
Proof.
  unfold open_read. rewrite result_bind. simpl.
  destruct (files w !! path); reflexivity.
Qed.

Lemma trace_open_read w path : trace (open_read w path) = [EvOpen path].
Proof.
  unfold open_read. rewrite trace_bind. simpl.
  destruct (files w !! path); reflexivity.
Qed.

Lemma open_read_file w path text :
  files w !! path = Some text -> open_read w path = ([EvOpen path], Ok text).
Proof. intros H. unfold open_read. cbn. rewrite H. reflexivity. Qed.

Lemma result_run_check_output w argv out :
  check_output w argv = inr out -> result (run_check_output w argv) = Ok out.
Proof.
  intros H. unfold run_check_output. rewrite result_bind, H. reflexivity.
Qed.

(** ** Strings *)

Lemma chr_eqb_eq a b : PyStr.chr_eqb a b = true -> a = b.
Proof. apply Ascii.eqb_eq. Qed.

Lemma chr_eqb_refl a : PyStr.chr_eqb a a = true.
Proof. apply Ascii.eqb_refl. Qed.

Lemma chr_eqb_neq a b : PyStr.chr_eqb a b = false -> a <> b.
Proof. apply Ascii.eqb_neq. Qed.

Lemma chr_eqb_sym a b : PyStr.chr_eqb a b = PyStr.chr_eqb b a.
Proof. apply Ascii.eqb_sym. Qed.

Lemma string_app_cons c s t : String c s +:+ t = String c (s +:+ t).
Proof. reflexivity. Qed.

Lemma string_app_assoc s t u : (s +:+ t) +:+ u = s +:+ t +:+ u.
Proof.
  induction s as [|c s IH]; [reflexivity|].
  rewrite !string_app_cons, IH. reflexivity.
Qed.

Lemma endswith_unfold s p :
  PyStr.endswith s p =
  if String.eqb s p then true
  else match s with
       | EmptyString => false
       | String _ s' => PyStr.endswith s' p
       end.
Proof. destruct s; reflexivity. Qed.

Lemma endswith_refl p : PyStr.endswith p p = true.
Proof. rewrite endswith_unfold, String.eqb_refl. reflexivity. Qed.

Lemma endswith_app s t p :
  PyStr.endswith t p = true -> PyStr.endswith (s +:+ t) p = true.
Proof.
  intros H. induction s as [|c s IH]; [exact H|].
  rewrite string_app_cons, endswith_unfold.
  destruct (String.eqb _ _); [reflexivity | exact IH].
Qed.

Lemma endswith_last_chr s p :
  p <> "" -> PyStr.endswith s p = true -> last_chr s = last_chr p.
Proof.
  intros Hp. induction s as [|c s IH]; rewrite endswith_unfold.
  - destruct (String.eqb_spec "" p) as [<-|_]; [congruence | discriminate].
  - destruct (String.eqb_spec (String c s) p) as [<-|_]; [reflexivity|].
    intros H. rewrite <- (IH H). destruct s as [|d s]; [|reflexivity].
    rewrite endswith_unfold in H.
    destruct (String.eqb_spec "" p) as [<-|_]; [congruence | discriminate].
Qed.

Lemma strip_prefix_nil s : PyStr.strip_prefix "" s = Some s.
Proof. destruct s; reflexivity. Qed.

Lemma strip_prefix_app p s : PyStr.strip_prefix p (p +:+ s) = Some s.
Proof.
  induction p as [|a p IH]; [apply strip_prefix_nil|].
  rewrite string_app_cons. simpl. rewrite chr_eqb_refl. exact IH.
Qed.

Lemma strip_prefix_Some p s r : PyStr.strip_prefix p s = Some r -> s = p +:+ r.
Proof.
  revert s. induction p as [|a p IH]; intros s.
  - rewrite strip_prefix_nil. intros [= <-]. reflexivity.
  - destruct s as [|b s]; simpl; [discriminate|].
    destruct (PyStr.chr_eqb a b) eqn:Hab; [|discriminate].
    apply chr_eqb_eq in Hab as ->. intros ->%IH. reflexivity.
Qed.

(** A prefix without newline is looked for in the first line only. *)
Lemma strip_prefix_line p l rest :
  mem_chr Re.nl p = false ->
  PyStr.strip_prefix p (l +:+ String Re.nl rest)
  = (fun r => r +:+ String Re.nl rest) <$> PyStr.strip_prefix p l.
Proof.
  revert l. induction p as [|a p IH]; intros l Hp.
  - rewrite !strip_prefix_nil. reflexivity.
  - simpl in Hp. apply orb_false_iff in Hp as [Ha Hp].
    destruct l as [|b l].
    + simpl. rewrite chr_eqb_sym, Ha. reflexivity.
    + rewrite string_app_cons. simpl.
      destruct (PyStr.chr_eqb a b); [apply IH; exact Hp | reflexivity].
Qed.

Lemma split_on_cons sep s : exists w ws, PyStr.split_on sep s = w :: ws.
Proof.
  induction s as [|c s (w & ws & IH)]; simpl; [eauto|].
  destruct (PyStr.chr_eqb c sep); [eauto|]. rewrite IH. eauto.
Qed.

Lemma split_on_app sep x y :
  PyStr.split_on sep (x +:+ String sep y)
  = PyStr.split_on sep x ++ PyStr.split_on sep y.
Proof.
  induction x as [|c x IH].
  - change ("" +:+ String sep y) with (String sep y). simpl.
    rewrite chr_eqb_refl. reflexivity.
  - rewrite string_app_cons. simpl. rewrite IH.
    destruct (PyStr.chr_eqb c sep); [reflexivity|].
    destruct (split_on_cons sep x) as (w & ws & ->). reflexivity.
Qed.

Lemma strip_prefix_head_line p s r :
  mem_chr Re.nl p = false ->
  PyStr.strip_prefix p s = Some r ->
  PyStr.strip_prefix p (hd "" (PyStr.split_on Re.nl s))
  = Some (hd "" (PyStr.split_on Re.nl r)).
Proof.
  revert s. induction p as [|a p IH]; intros s Hp.
  - rewrite !strip_prefix_nil. intros [= <-]. reflexivity.
  - simpl in Hp. apply orb_false_iff in Hp as [Ha Hp].
    destruct s as [|b s]; simpl; [discriminate|].
    destruct (PyStr.chr_eqb a b) eqn:Hab; [|discriminate].
    intros Hs. pose proof (chr_eqb_eq _ _ Hab) as <-.
    rewrite chr_eqb_sym, Ha.
    destruct (split_on_cons Re.nl s) as (w & ws & Hw).
    specialize (IH s Hp Hs). rewrite Hw in IH |- *. simpl in IH |- *.
    rewrite chr_eqb_refl. exact IH.
Qed.

Lemma lstrip_app a x :
  all_space a = false -> PyStr.lstrip (a +:+ x) = PyStr.lstrip a +:+ x.
Proof.
  induction a as [|c a IH]; [discriminate|].
  rewrite string_app_cons. simpl.
  destruct (PyStr.isspace c); [exact IH | reflexivity].
Qed.

Lemma rstrip_nil b : PyStr.rstrip b = "" -> all_space b = true.
Proof.
  induction b as [|c b IH]; simpl; [reflexivity|].
  destruct (PyStr.rstrip b); [|discriminate].
  destruct (PyStr.isspace c); [auto | discriminate].
Qed.

Lemma rstrip_app x b :
  all_space b = false -> PyStr.rstrip (x +:+ b) = x +:+ PyStr.rstrip b.
Proof.
  intros Hb. induction x as [|c x IH]; [reflexivity|].
  rewrite !string_app_cons. simpl. rewrite IH.
  destruct (x +:+ PyStr.rstrip b) eqn:Hx; [|reflexivity].
  destruct x; [|discriminate].
  apply rstrip_nil in Hx. congruence.
Qed.

(** The lines of a text with an empty line between two parts that are not
    blank. *)
Lemma lines_blank_between a b :
  all_space a = false -> all_space b = false ->
  PyStr.split_on Re.nl (PyStr.strip (a +:+ String Re.nl (String Re.nl b)))
  = PyStr.split_on Re.nl (PyStr.lstrip a)
    ++ "" :: PyStr.split_on Re.nl (PyStr.rstrip b).
Proof.
  intros Ha Hb. unfold PyStr.strip. rewrite (lstrip_app _ _ Ha).
  change (String Re.nl (String Re.nl b)) with ((String Re.nl (String Re.nl "")) +:+ b).
  rewrite <- string_app_assoc, (rstrip_app _ _ Hb), string_app_assoc.
  change (String Re.nl (String Re.nl "") +:+ PyStr.rstrip b)
    with (String Re.nl ("" +:+ String Re.nl (PyStr.rstrip b))).
  rewrite !split_on_app. reflexivity.
Qed.

Lemma slice_to_length n s : String.length (PyStr.slice_to n s) <= n.
Proof.
  unfold PyStr.slice_to. revert s.
  induction n as [|n IH]; intros [|c s]; simpl; try lia.
  specialize (IH s). lia.
Qed.

Lemma index_first x l1 l2 :
  x ∉ l1 -> PyStr.index x (l1 ++ x :: l2) = Some (length l1).
Proof.
  induction l1 as [|y l1 IH]; simpl; intros Hx.
  - rewrite String.eqb_refl. reflexivity.
  - apply not_elem_of_cons in Hx as [Hxy Hx].
    destruct (String.eqb_spec y x) as [->|_]; [congruence|].
    rewrite (IH Hx). reflexivity.
Qed.

(** ** The version probe *)

(** The probe on a banner whose first [release] token is followed by
    [token]. *)
Lemma get_nvcc_cuda_version_first_release w home text l1 token l2 :
  CUDA_HOME w = Some home ->
  check_output w [OsPath.join home ["bin/nvcc"]; "-V"] = inr text ->
  PyStr.split text = l1 ++ "release" :: token :: l2 ->
  "release" ∉ l1 ->
  result (get_nvcc_cuda_version w)
  = result (number ← getitem (PyStr.split_on "," token) 0; parse number).
Proof.
  intros Hhome Hout Hsplit Hfirst. unfold get_nvcc_cuda_version.
  rewrite Hhome, (result_bind_ok _ _ _ (result_run_check_output _ _ _ Hout)).
  rewrite Hsplit, (index_first _ _ _ Hfirst).
  rewrite (result_bind_ok _ _ token).
  - rewrite !result_bind. destruct (result (getitem _ 0)); [|reflexivity..].
    rewrite result_bind. destruct (result (parse a)); reflexivity.
  - apply result_getitem. rewrite lookup_app_r by lia.
    replace (length l1 + 1 - length l1) with 1 by lia. reflexivity.
Qed.

(** C3, amended: when the toolchain path is set and the first
    [release] token of what [nvcc -V] prints is followed by the token
    [12.1,], the probe returns the version 12.1. *)
Theorem get_nvcc_cuda_version_12_1 (w : World) (home text : string)
    (l1 l2 : list string) :
  CUDA_HOME w = Some home ->
  check_output w [OsPath.join home ["bin/nvcc"]; "-V"] = inr text ->
  PyStr.split text = l1 ++ "release" :: "12.1," :: l2 ->
  "release" ∉ l1 ->
  result (get_nvcc_cuda_version w) = Ok (release_version [12%N; 1%N]).
Proof.
  intros Hhome Hout Hsplit Hfirst.
  rewrite (get_nvcc_cuda_version_first_release _ _ _ _ _ _ Hhome Hout Hsplit Hfirst).
  reflexivity.
Qed.

Lemma get_nvcc_cuda_version_12_1_witness :
  result (get_nvcc_cuda_version sample_world) = Ok (release_version [12%N; 1%N]).
Proof.
  apply (get_nvcc_cuda_version_12_1 sample_world "/usr/local/cuda" nvcc_banner
           ["nvcc:"; "NVIDIA"; "(R)"; "Cuda"; "compiler"; "driver";
            "Copyright"; "(c)"; "2005-2023"; "NVIDIA"; "Corporation";
            "Built"; "on"; "Mon_Apr__3_17:16:06_PDT_2023";
            "Cuda"; "compilation"; "tools,"]
           ["V12.1.105"; "Build"; "cuda_12.1.r12.1/compiler.32688072_0"]).
  - reflexivity.
  - reflexivity.
  - vm_compute. reflexivity.
  - intros H. apply list_elem_of_In in H. vm_compute in H. intuition discriminate.
Defined.

(** C3, counterexample: the banner below contains the token [release]
    followed by [12.1,], and the probe returns 11.8, the version after the
    first [release]. *)
Lemma get_nvcc_cuda_version_second_release :
  CUDA_HOME two_release_world = Some "/usr/local/cuda"
  /\ check_output two_release_world ["/usr/local/cuda/bin/nvcc"; "-V"]
     = inr two_release_banner
  /\ PyStr.split two_release_banner
     = ["Cuda"; "compilation"; "tools,"; "release"; "11.8,"]
       ++ "release" :: "12.1," :: ["V12.1.105"]
  /\ result (get_nvcc_cuda_version two_release_world)
     = Ok (release_version [11%N; 8%N])
  /\ result (get_nvcc_cuda_version two_release_world)
     <> Ok (release_version [12%N; 1%N]).
Proof. repeat split; try (vm_compute; reflexivity). vm_compute. discriminate. Qed.

(** ** The search for the version literal *)

Lemma match_version_other_line l rest :
  starts_assignment l = false ->
  Re.match_version (l +:+ String Re.nl rest) = None.
Proof.
  unfold starts_assignment, Re.match_version.
  rewrite strip_prefix_line by reflexivity.
  destruct (PyStr.strip_prefix _ l) as [[|q r]|]; simpl; [reflexivity| |reflexivity].
  intros ->. reflexivity.
Qed.

Lemma search_from_unfold bol s :
  Re.search_from bol s =
  match (if bol then Re.match_version s else None) with
  | Some g => Some g
  | None =>
      match s with
      | EmptyString => None
      | String c s' => Re.search_from (PyStr.chr_eqb c Re.nl) s'
      end
  end.
Proof. destruct s; reflexivity. Qed.

(** The scan passes over a line that does not start an assignment. *)
Lemma search_from_skip_line bol l rest :
  mem_chr Re.nl l = false ->
  (bol = true -> starts_assignment l = false) ->
  Re.search_from bol (l +:+ String Re.nl rest) = Re.search_from true rest.
Proof.
  revert bol. induction l as [|c l IH]; intros bol Hnl Hl;
    rewrite search_from_unfold.
  - replace (if bol then _ else None) with (@None string).
    + change ("" +:+ String Re.nl rest) with (String Re.nl rest).
      cbv iota. rewrite chr_eqb_refl. reflexivity.
    + destruct bol; [|reflexivity].
      symmetry. apply (match_version_other_line ""). auto.
  - simpl in Hnl. apply orb_false_iff in Hnl as [Hc Hnl].
    replace (if bol then _ else None) with (@None string).
    + rewrite string_app_cons. cbv iota. rewrite chr_eqb_sym, Hc.
      apply IH; [exact Hnl | discriminate].
    + destruct bol; [|reflexivity].
      symmetry. apply match_version_other_line. auto.
Qed.

Lemma read_group_app v q rest :
  quote_free v = true -> Re.is_quote q = true ->
  Re.read_group (v +:+ String q rest) = Some (v, rest).
Proof.
  intros Hv Hq. induction v as [|c v IH].
  - change ("" +:+ String q rest) with (String q rest). simpl.
    rewrite Hq. reflexivity.
  - simpl in Hv. apply andb_true_iff in Hv as [Hc%negb_true_iff Hv].
    rewrite string_app_cons. simpl. rewrite Hc, (IH Hv). reflexivity.
Qed.

Lemma read_group_Some s v rest :
  Re.read_group s = Some (v, rest) ->
  exists q, s = v +:+ String q rest /\ Re.is_quote q = true
            /\ quote_free v = true.
Proof.
  revert v. induction s as [|c s IH]; intros v; simpl; [discriminate|].
  destruct (Re.is_quote c) eqn:Hc.
  - intros [= <- <-]. exists c. auto.
  - destruct (Re.read_group s) as [[g r]|]; [|discriminate].
    intros [= <- <-]. destruct (IH g eq_refl) as (q & -> & Hq & Hg).
    exists q. simpl. rewrite Hc, Hg. auto.
Qed.

Lemma version_line_app q1 v q2 rest :
  version_line q1 v q2 +:+ rest
  = Re.version_literal +:+ String q1 (v +:+ String q2 rest).
Proof.
  unfold version_line.
  rewrite string_app_assoc, string_app_cons, string_app_assoc. reflexivity.
Qed.

Lemma match_version_line q1 v q2 rest :
  Re.is_quote q1 = true -> Re.is_quote q2 = true -> quote_free v = true ->
  Re.match_version (version_line q1 v q2 +:+ rest) = Some v.
Proof.
  intros H1 H2 Hv. rewrite version_line_app. unfold Re.match_version.
  rewrite strip_prefix_app, H1, (read_group_app _ _ _ Hv H2). reflexivity.
Qed.

Lemma match_version_Some s v :
  Re.match_version s = Some v ->
  exists q1 q2 rest,
    s = version_line q1 v q2 +:+ rest
    /\ Re.is_quote q1 = true /\ Re.is_quote q2 = true /\ quote_free v = true.
Proof.
  unfold Re.match_version.
  destruct (PyStr.strip_prefix _ s) as [[|q1 r]|] eqn:Hs; try discriminate.
  destruct (Re.is_quote q1) eqn:H1; [|discriminate].
  destruct (Re.read_group r) as [[g rest]|] eqn:Hr; [|discriminate].
  intros [= <-]. destruct (read_group_Some _ _ _ Hr) as (q2 & -> & H2 & Hg).
  exists q1, q2, rest. rewrite version_line_app.
  apply strip_prefix_Some in Hs. auto.
Qed.

(** The first line that starts an assignment decides. *)
Lemma search_version_first before q1 v q2 after :
  Forall other_line before ->
  Re.is_quote q1 = true -> Re.is_quote q2 = true -> quote_free v = true ->
  Re.search_version (unlines before +:+ version_line q1 v q2 +:+ after)
  = Some v.
Proof.
  intros Hb H1 H2 Hv. unfold Re.search_version.
  induction Hb as [|l before [Hnl Hl] _ IH].
  - change (unlines [] +:+ ?s) with s.
    rewrite search_from_unfold, match_version_line by assumption. reflexivity.
  - simpl. rewrite string_app_assoc, string_app_cons.
    rewrite search_from_skip_line; auto.
Qed.

(** A match starts at the beginning of the text or right after a newline. *)
Lemma search_from_Some bol s v :
  Re.search_from bol s = Some v ->
  exists pre q1 q2 post,
    s = pre +:+ version_line q1 v q2 +:+ post
    /\ ((pre = "" /\ bol = true) \/ exists p, pre = p +:+ String Re.nl "")
    /\ Re.is_quote q1 = true /\ Re.is_quote q2 = true /\ quote_free v = true.
Proof.
  revert bol. induction s as [|c s IH]; intros bol; rewrite search_from_unfold.
  - destruct bol; [|discriminate].
    destruct (Re.match_version "") eqn:Hm; [|discriminate].
    intros [= ->]. destruct (match_version_Some _ _ Hm) as (q1 & q2 & r & ? & ?).
    exists "", q1, q2, r. auto.
  - destruct (if bol then Re.match_version (String c s) else None) as [g|] eqn:Hm.
    + intros [= ->]. destruct bol; [|discriminate].
      destruct (match_version_Some _ _ Hm) as (q1 & q2 & r & ? & ?).
      exists "", q1, q2, r. auto.
    + intros (pre & q1 & q2 & post & -> & Hpre & Hq)%IH.
      exists (String c pre), q1, q2, post. split; [reflexivity|].
      split; [right|exact Hq].
      destruct Hpre as [[-> Hc]|[p ->]].
      * apply chr_eqb_eq in Hc as ->. exists "". reflexivity.
      * exists (String c p). reflexivity.
Qed.

Lemma is_quote_not_nl q : Re.is_quote q = true -> PyStr.chr_eqb q Re.nl = false.
Proof.
  destruct (PyStr.chr_eqb q Re.nl) eqn:H; [|reflexivity].
  apply chr_eqb_eq in H as ->. discriminate.
Qed.

Lemma match_version_head_line s :
  starts_assignment (hd "" (PyStr.split_on Re.nl s)) = false ->
  Re.match_version s = None.
Proof.
  unfold starts_assignment, Re.match_version.
  destruct (PyStr.strip_prefix _ s) as [[|q r]|] eqn:Hs; try reflexivity.
  rewrite (strip_prefix_head_line Re.version_literal _ _ eq_refl Hs).
  destruct (Re.is_quote q) eqn:Hq; [|reflexivity].
  simpl. rewrite (is_quote_not_nl _ Hq).
  destruct (split_on_cons Re.nl r) as (w & ws & ->). simpl.
  rewrite Hq. discriminate.
Qed.

(** No line starts an assignment: nothing is found. *)
Lemma search_from_None bol s :
  (bol = true -> starts_assignment (hd "" (PyStr.split_on Re.nl s)) = false) ->
  Forall (fun l => starts_assignment l = false) (tl (PyStr.split_on Re.nl s)) ->
  Re.search_from bol s = None.
Proof.
  revert bol. induction s as [|c s IH]; intros bol Hhd Htl;
    rewrite search_from_unfold.
  - destruct bol; [|reflexivity]. rewrite match_version_head_line; auto.
  - replace (if bol then _ else None) with (@None string).
    2:{ destruct bol; [|reflexivity]. rewrite match_version_head_line; auto. }
    simpl in Htl. destruct (PyStr.chr_eqb c Re.nl) eqn:Hc.
    + simpl in Htl. destruct (split_on_cons Re.nl s) as (w & ws & Hw).
      rewrite Hw in Htl. apply Forall_cons in Htl as [Hw1 Hws].
      apply IH; rewrite Hw; auto.
    + destruct (split_on_cons Re.nl s) as (w & ws & Hw).
      rewrite Hw in Htl. simpl in Htl.
      apply IH; [discriminate | rewrite Hw; exact Htl].
Qed.

Lemma search_version_None text :
  Forall (fun l => starts_assignment l = false) (PyStr.split_on Re.nl text) ->
  Re.search_version text = None.
Proof.
  intros H. destruct (split_on_cons Re.nl text) as (w & ws & Hw).
  rewrite Hw in H. apply Forall_cons in H as [H1 H2].
  apply search_from_None; rewrite Hw; auto.
Qed.

Lemma result_find_version w filepath text :
  files w !! filepath = Some text ->
  result (find_version w filepath) =
  match Re.search_version text with
  | Some group1 => Ok group1
  | None => Raise (RuntimeError "Unable to find version string.")
  end.
Proof.
  intros Hf. unfold find_version.
  rewrite result_bind, result_open_read, Hf.
  destruct (Re.search_version text); reflexivity.
Qed.

Lemma trace_find_version w filepath :
  trace (find_version w filepath) = [EvOpen filepath].
Proof.
  unfold find_version. rewrite trace_bind, trace_open_read, result_open_read.
  destruct (files w !! filepath) as [text|]; [|reflexivity].
  destruct (Re.search_version text); reflexivity.
Qed.

Lemma find_version_not_deeper w filepath :
  result (find_version w filepath) <> Deeper.
Proof.
  unfold find_version. rewrite result_bind, result_open_read.
  destruct (files w !! filepath) as [text|]; [|discriminate].
  destruct (Re.search_version text); discriminate.
Qed.

(** C2, amended: [find_version] returns [v] when the file holds
    the line [__version__ = ] followed by [v] between double quotes, [v]
    has no quote character, and no earlier line starts with
    [__version__ = ] and a quote character; and when the search finds no
    version literal it raises [RuntimeError] instead of returning. *)
Theorem find_version_first_assignment (w : World) (filepath text : string) :
  files w !! filepath = Some text ->
  (forall before v after,
      Forall other_line before ->
      quote_free v = true ->
      text = unlines before +:+ version_line Re.dquote v Re.dquote +:+ after ->
      result (find_version w filepath) = Ok v)
  /\ (Re.search_version text = None ->
      result (find_version w filepath)
      = Raise (RuntimeError "Unable to find version string.")
      /\ forall v, result (find_version w filepath) <> Ok v).
Proof.
  intros Hf. rewrite (result_find_version _ _ _ Hf). split.
  - intros before v after Hb Hv ->.
    rewrite search_version_first by (assumption || reflexivity). reflexivity.
  - intros ->. split; [reflexivity | discriminate].
Qed.

Lemma find_version_first_assignment_witness :
  result (find_version two_version_world "flute/__init__.py") = Ok "0.1".
Proof.
  refine (proj1 (find_version_first_assignment two_version_world
                   "flute/__init__.py" two_version_text _)
            [] "0.1" (String Re.nl (unlines [version_line Re.dquote "1.2.3" Re.dquote]))
            _ _ _).
  - vm_compute. reflexivity.
  - constructor.
  - reflexivity.
  - vm_compute. reflexivity.
Defined.

(** C2, counterexample: the file below contains the line that assigns
    1.2.3, and [find_version] returns 0.1, the value of the line before it. *)
Lemma find_version_second_assignment :
  files two_version_world !! "flute/__init__.py" = Some two_version_text
  /\ version_line Re.dquote "1.2.3" Re.dquote
     ∈ PyStr.split_on Re.nl two_version_text
  /\ result (find_version two_version_world "flute/__init__.py") = Ok "0.1"
  /\ result (find_version two_version_world "flute/__init__.py") <> Ok "1.2.3".
Proof.
  repeat split; try (vm_compute; reflexivity).
  - apply list_elem_of_In. vm_compute. auto.
  - vm_compute. discriminate.
Qed.

(** C8: a value that [find_version] returns stands in an assignment that
    begins the text or follows a newline; among the lines that start with
    [__version__ = ] and a quote character the first one decides, whatever
    follows it; and a text none of whose lines starts that way, such as one
    whose assignments are all preceded by other characters on their line,
    yields no match and the error. *)
Theorem find_version_line_start (w : World) (filepath text : string) :
  files w !! filepath = Some text ->
  (forall v,
      result (find_version w filepath) = Ok v ->
      exists pre q1 q2 post,
        text = pre +:+ version_line q1 v q2 +:+ post
        /\ (pre = "" \/ exists p, pre = p +:+ String Re.nl "")
        /\ Re.is_quote q1 = true /\ Re.is_quote q2 = true
        /\ quote_free v = true)
  /\ (forall before q1 v q2 after,
        Forall other_line before ->
        Re.is_quote q1 = true -> Re.is_quote q2 = true ->
        quote_free v = true ->
        text = unlines before +:+ version_line q1 v q2 +:+ after ->
        result (find_version w filepath) = Ok v)
  /\ (Forall (fun l => starts_assignment l = false)
             (PyStr.split_on Re.nl text) ->
      result (find_version w filepath)
      = Raise (RuntimeError "Unable to find version string.")).
Proof.
  intros Hf. rewrite (result_find_version _ _ _ Hf). split; [|split].
  - intros v Hv. destruct (Re.search_version text) as [g|] eqn:Hs; [|discriminate].
    injection Hv as ->.
    destruct (search_from_Some _ _ _ Hs)
      as (pre & q1 & q2 & post & -> & Hpre & Hq).
    exists pre, q1, q2, post. split; [reflexivity|].
    split; [|exact Hq]. destruct Hpre as [[-> _]|Hp]; auto.
  - intros before q1 v q2 after Hb H1 H2 Hv ->.
    rewrite search_version_first by assumption. reflexivity.
  - intros Hl. rewrite search_version_None by exact Hl. reflexivity.
Qed.

Lemma find_version_line_start_witness :
  result (find_version indented_version_world "flute/__init__.py")
  = Raise (RuntimeError "Unable to find version string.").
Proof.
  refine (proj2 (proj2 (find_version_line_start indented_version_world
                          "flute/__init__.py"
                          ("    " +:+ version_line Re.squote "1.0.0" Re.squote)
                          _)) _).
  - vm_compute. reflexivity.
  - vm_compute. repeat constructor.
Defined.

(** ** The version string *)

(** C1, amended: [get_version] returns the base version,
    [+cu], the first three characters of the CUDA version written without
    its dots (fewer when there are fewer), [torch], and the major and
    minor numbers of the framework version separated by a dot; for the
    base 1.0.0, CUDA 12.1 and the framework 2.3.1 this is
    [1.0.0+cu121torch2.3]. *)
Theorem get_version_suffix (w : World) (base : string)
    (nvcc torch : Packaging.Version) :
  result (find_version w (get_path w [LIBRARY_NAME; "__init__.py"])) = Ok base ->
  result (get_nvcc_cuda_version w) = Ok nvcc ->
  Packaging.parse (torch_version w) = Some torch ->
  let cu := PyStr.slice_to 3 (PyStr.replace "." "" (Packaging.to_str nvcc)) in
  result (get_version w)
  = Ok (base +:+ "+cu" +:+ cu +:+ "torch"
        +:+ PyStr.str_int (Packaging.major torch) +:+ "."
        +:+ PyStr.str_int (Packaging.minor torch))
  /\ String.length cu <= 3
  /\ (base = "1.0.0" -> nvcc = release_version [12%N; 1%N] ->
      torch_version w = "2.3.1" ->
      result (get_version w) = Ok "1.0.0+cu121torch2.3").
Proof.
  intros Hbase Hnvcc Htorch cu.
  assert (Hrun : result (get_version w)
                 = Ok (base +:+ "+cu" +:+ cu +:+ "torch"
                       +:+ PyStr.str_int (Packaging.major torch) +:+ "."
                       +:+ PyStr.str_int (Packaging.minor torch))).
  { unfold get_version.
    rewrite (result_bind_ok _ _ _ Hbase), (result_bind_ok _ _ _ Hnvcc).
    rewrite (result_bind_ok _ _ _ (result_parse _ _ Htorch)). reflexivity. }
  split; [exact Hrun|]. split; [apply slice_to_length|].
  intros -> Hv Ht. rewrite Hrun. subst cu. rewrite Hv.
  rewrite Ht in Htorch. vm_compute in Htorch.
  injection Htorch as <-. vm_compute. reflexivity.
Qed.

Lemma get_version_suffix_witness :
  result (get_version sample_world) = Ok "1.0.0+cu121torch2.3".
Proof.
  refine (proj2 (proj2 (get_version_suffix sample_world "1.0.0"
                          (release_version [12%N; 1%N])
                          (release_version [2%N; 3%N; 1%N]) _ _ _)) _ _ _);
    vm_compute; reflexivity.
Defined.

(** C1, counterexample: with the toolkit 9.0 the version is
    [1.0.0+cu90torch2.3], where two digits, not three, follow [+cu]. *)
Lemma get_version_cuda_9 :
  result (find_version cuda9_world
            (get_path cuda9_world [LIBRARY_NAME; "__init__.py"])) = Ok "1.0.0"
  /\ result (get_nvcc_cuda_version cuda9_world) = Ok (release_version [9%N; 0%N])
  /\ Packaging.parse (torch_version cuda9_world)
     = Some (release_version [2%N; 3%N; 1%N])
  /\ result (get_version cuda9_world) = Ok "1.0.0+cu90torch2.3"
  /\ ~ three_digit_form "1.0.0" "1.0.0+cu90torch2.3".
Proof.
  repeat split; try (vm_compute; reflexivity).
  intros (d1 & d2 & d3 & major & minor & _ & _ & H3 & Heq).
  cbv [String.append] in Heq. injection Heq as _ _ <- _.
  vm_compute in H3. discriminate.
Qed.

(** ** The version probe without a toolchain *)

Lemma get_version_unset w :
  CUDA_HOME w = None ->
  let init := get_path w [LIBRARY_NAME; "__init__.py"] in
  trace (get_version w) = [EvOpen init]
  /\ result (get_version w) =
     match result (find_version w init) with
     | Ok _ => Raise (AssertionError "CUDA_HOME is not set")
     | Raise e => Raise e
     | Deeper => Deeper
     end.
Proof.
  intros Hhome init. unfold get_version. fold init.
  rewrite trace_bind, result_bind, trace_find_version.
  destruct (result (find_version w init)) as [base|e|]; [|auto..].
  rewrite trace_bind, result_bind.
  unfold get_nvcc_cuda_version. rewrite Hhome. auto.
Qed.

(** C7: with [CUDA_HOME] unset the version probe raises its assertion
    error at once, before it launches anything; the call of [setup] then
    ends with an exception, and by that point no glob has been performed:
    the only operation is the opening of the version file.  When that file
    yields a version the exception is the assertion error of the probe. *)
Theorem cuda_home_unset_fails_before_glob (depth : nat) (w : World) :
  CUDA_HOME w = None ->
  get_nvcc_cuda_version w = ([], Raise (AssertionError "CUDA_HOME is not set"))
  /\ (exists e, result (setup_call depth w) = Raise e)
  /\ Forall (fun ev => is_glob ev = false) (trace (setup_call depth w))
  /\ (forall base,
        result (find_version w (get_path w [LIBRARY_NAME; "__init__.py"])) = Ok base ->
        result (setup_call depth w) = Raise (AssertionError "CUDA_HOME is not set")).
Proof.
  intros Hhome.
  destruct (get_version_unset w Hhome) as [Ht Hr].
  set (init := get_path w [LIBRARY_NAME; "__init__.py"]) in *.
  assert (Hsetup : trace (setup_call depth w) = [EvOpen init]
                   /\ result (setup_call depth w) =
                      match result (find_version w init) with
                      | Ok _ => Raise (AssertionError "CUDA_HOME is not set")
                      | Raise e => Raise e
                      | Deeper => Deeper
                      end).
  { unfold setup_call. rewrite trace_bind, result_bind, Ht, Hr.
    destruct (result (find_version w init)); auto. }
  destruct Hsetup as [Hst Hsr].
  split; [|split; [|split]].
  - unfold get_nvcc_cuda_version. rewrite Hhome. reflexivity.
  - rewrite Hsr. pose proof (find_version_not_deeper w init) as Hnd.
    destruct (result (find_version w init)); [eauto|eauto|congruence].
  - rewrite Hst. repeat constructor.
  - intros base Hbase. rewrite Hsr, Hbase. reflexivity.
Qed.

Lemma cuda_home_unset_witness :
  get_nvcc_cuda_version (with_cuda_home None sample_world)
  = ([], Raise (AssertionError "CUDA_HOME is not set")).
Proof.
  exact (proj1 (cuda_home_unset_fails_before_glob
                  3 (with_cuda_home None sample_world) eq_refl)).
Defined.

(** ** What a glob for a file extension returns *)

Lemma fnmatch_star pat n :
  Glob.fnmatch (String "*" pat) n =
  Glob.fnmatch pat n
  || match n with
     | EmptyString => false
     | String _ n' => Glob.fnmatch (String "*" pat) n'
     end.
Proof. destruct n; reflexivity. Qed.

Lemma fnmatch_star_suffix pat n :
  Glob.fnmatch (String "*" pat) n = true ->
  exists pre suf, n = pre +:+ suf /\ Glob.fnmatch pat suf = true.
Proof.
  induction n as [|c n IH]; rewrite fnmatch_star; intros H.
  - rewrite orb_false_r in H. exists "", "". auto.
  - apply orb_true_iff in H as [H|H].
    + exists "", (String c n). auto.
    + destruct (IH H) as (pre & suf & -> & Hs).
      exists (String c pre), suf. auto.
Qed.

Lemma fnmatch_plain_cons c pat n :
  c <> "*"%char -> c <> "?"%char ->
  Glob.fnmatch (String c pat) n =
  match n with
  | String d n' => PyStr.chr_eqb c d && Glob.fnmatch pat n'
  | EmptyString => false
  end.
Proof.
  intros Hs Hq.
  destruct c as [[] [] [] [] [] [] [] []]; try reflexivity; congruence.
Qed.

(** A pattern without wildcards matches itself only. *)
Lemma fnmatch_plain pat n :
  mem_chr "*" pat = false -> mem_chr "?" pat = false ->
  Glob.fnmatch pat n = true -> n = pat.
Proof.
  revert n. induction pat as [|c pat IH]; intros n Hs Hq.
  - simpl. intros H%String.eqb_eq. exact H.
  - simpl in Hs, Hq.
    apply orb_false_iff in Hs as [Hs1%chr_eqb_neq Hs2].
    apply orb_false_iff in Hq as [Hq1%chr_eqb_neq Hq2].
    rewrite fnmatch_plain_cons by congruence.
    destruct n as [|d n]; [discriminate|].
    intros [->%chr_eqb_eq Hn]%andb_true_iff.
    f_equal. apply IH; assumption.
Qed.

Lemma join_endswith dir n p :
  PyStr.endswith n p = true -> PyStr.endswith (OsPath.join dir [n]) p = true.
Proof.
  intros H. unfold OsPath.join, OsPath.join2. simpl.
  destruct (PyStr.startswith n "/"); [exact H|].
  destruct (_ || _); repeat apply endswith_app; exact H.
Qed.

Lemma fnmatch_star_endswith ext n :
  mem_chr "*" ext = false -> mem_chr "?" ext = false ->
  Glob.fnmatch (String "*" ext) n = true -> PyStr.endswith n ext = true.
Proof.
  intros Hs Hq Hm.
  destruct (fnmatch_star_suffix _ _ Hm) as (pre & suf & -> & Hsuf).
  apply (fnmatch_plain _ _ Hs Hq) in Hsuf as ->.
  apply endswith_app, endswith_refl.
Qed.

Lemma glob1_elem entries pattern n :
  n ∈ Glob.glob1 entries pattern ->
  Glob.fnmatch pattern n = true
  /\ exists names, entries = Some names /\ n ∈ names.
Proof.
  unfold Glob.glob1. intros [Hm Hn]%list_elem_of_filter. split; [exact Hm|].
  destruct entries as [names|]; simpl in Hn.
  - exists names. split; [reflexivity|].
    destruct (Glob.ishidden pattern); [exact Hn|].
    apply list_elem_of_filter in Hn as [_ Hn]. exact Hn.
  - destruct (Glob.ishidden pattern); inversion Hn.
Qed.

Lemma globbed_cpp w x :
  x ∈ globbed w "flute/csrc/*.cpp" -> PyStr.endswith x ".cpp" = true.
Proof.
  unfold_source_glob.
  intros (n & <- & [Hn _]%list_elem_of_In%glob1_elem)%list_elem_of_In%in_map_iff.
  apply join_endswith, fnmatch_star_endswith; auto.
Qed.

Lemma globbed_cu w x :
  x ∈ globbed w "flute/csrc/*.cu" -> PyStr.endswith x ".cu" = true.
Proof.
  unfold_source_glob.
  intros (n & <- & [Hn _]%list_elem_of_In%glob1_elem)%list_elem_of_In%in_map_iff.
  apply join_endswith, fnmatch_star_endswith; auto.
Qed.

(** A directory without an entry that ends in the extension, or one that
    cannot be listed, has an empty glob. *)
Lemma globbed_cpp_nil w :
  (forall names, listdir w !! "flute/csrc" = Some names ->
                 Forall (fun n => PyStr.endswith n ".cpp" = false) names) ->
  globbed w "flute/csrc/*.cpp" = [].
Proof.
  intros Hdir. apply elem_of_nil_inv. intros x. unfold_source_glob.
  intros (n & _ & [Hm (names & Hl & Hn)]%list_elem_of_In%glob1_elem)%list_elem_of_In%in_map_iff.
  specialize (Hdir names Hl). rewrite Forall_forall in Hdir.
  apply fnmatch_star_endswith in Hm; [|reflexivity..].
  rewrite (Hdir n Hn) in Hm. discriminate.
Qed.

Lemma globbed_cu_nil w :
  (forall names, listdir w !! "flute/csrc" = Some names ->
                 Forall (fun n => PyStr.endswith n ".cu" = false) names) ->
  globbed w "flute/csrc/*.cu" = [].
Proof.
  intros Hdir. apply elem_of_nil_inv. intros x. unfold_source_glob.
  intros (n & _ & [Hm (names & Hl & Hn)]%list_elem_of_In%glob1_elem)%list_elem_of_In%in_map_iff.
  specialize (Hdir names Hl). rewrite Forall_forall in Hdir.
  apply fnmatch_star_endswith in Hm; [|reflexivity..].
  rewrite (Hdir n Hn) in Hm. discriminate.
Qed.

Lemma endswith_cpp_not_cu x :
  PyStr.endswith x ".cpp" = true -> PyStr.endswith x ".cu" = true -> False.
Proof.
  intros H1%endswith_last_chr H2%endswith_last_chr; [|discriminate..].
  rewrite H1 in H2. discriminate.
Qed.

(** ** The extension descriptor *)

Lemma get_extensions_run w :
  exists ext,
    get_extensions w
    = ([EvGlob "flute/csrc/*.cpp"; EvGlob "flute/csrc/*.cu"], Ok [ext])
    /\ ext_name ext = "flute._C"
    /\ sources ext = globbed w "flute/csrc/*.cpp" ++ globbed w "flute/csrc/*.cu".
Proof. eexists. split; [reflexivity|]. split; reflexivity. Qed.

(** C6: when both globs of the source directory match nothing,
    [get_extensions] raises nothing and returns one extension descriptor
    whose list of sources is empty; and both globs match nothing when the
    directory cannot be listed or has no entry that ends in [.cpp] or in
    [.cu]. *)
Theorem get_extensions_no_sources (w : World) :
  (globbed w "flute/csrc/*.cpp" = [] ->
   globbed w "flute/csrc/*.cu" = [] ->
   exists ext, result (get_extensions w) = Ok [ext] /\ sources ext = [])
  /\ ((forall names,
         listdir w !! "flute/csrc" = Some names ->
         Forall (fun n => PyStr.endswith n ".cpp" = false
                          /\ PyStr.endswith n ".cu" = false) names) ->
      globbed w "flute/csrc/*.cpp" = [] /\ globbed w "flute/csrc/*.cu" = []).
Proof.
  split.
  - intros Hcpp Hcu. destruct (get_extensions_run w) as (ext & Hrun & _ & Hsrc).
    exists ext. rewrite Hrun, Hsrc, Hcpp, Hcu. auto.
  - intros Hdir. split; [apply globbed_cpp_nil | apply globbed_cu_nil];
      intros names Hl; specialize (Hdir names Hl);
      eapply Forall_impl; [exact Hdir | intros n [? ?]; assumption
                          | exact Hdir | intros n [? ?]; assumption].
Qed.

Lemma get_extensions_no_sources_witness :
  exists ext,
    result (get_extensions (with_listdir "flute/csrc" ["config.h"] sample_world))
    = Ok [ext] /\ sources ext = [].
Proof.
  apply (proj1 (get_extensions_no_sources
                  (with_listdir "flute/csrc" ["config.h"] sample_world)));
    vm_compute; reflexivity.
Defined.

(** C9: the list of sources of the extension descriptor is the result of
    the [.cpp] glob followed by the result of the [.cu] glob; the former
    holds only paths that end in [.cpp], the latter only paths that end in
    [.cu], and so every [.cpp] path of the list stands at a smaller index
    than every [.cu] path. *)
Theorem get_extensions_cpp_before_cu (w : World) :
  exists ext,
    result (get_extensions w) = Ok [ext]
    /\ sources ext = globbed w "flute/csrc/*.cpp" ++ globbed w "flute/csrc/*.cu"
    /\ Forall (fun x => PyStr.endswith x ".cpp" = true) (globbed w "flute/csrc/*.cpp")
    /\ Forall (fun y => PyStr.endswith y ".cu" = true) (globbed w "flute/csrc/*.cu")
    /\ forall i j x y,
         sources ext !! i = Some x -> PyStr.endswith x ".cpp" = true ->
         sources ext !! j = Some y -> PyStr.endswith y ".cu" = true ->
         i < j.
Proof.
  destruct (get_extensions_run w) as (ext & Hrun & _ & Hsrc).
  exists ext. rewrite Hrun, Hsrc.
  assert (Hcpp : Forall (fun x => PyStr.endswith x ".cpp" = true)
                   (globbed w "flute/csrc/*.cpp")).
  { apply Forall_forall. intros x Hx. apply (globbed_cpp w x Hx). }
  assert (Hcu : Forall (fun y => PyStr.endswith y ".cu" = true)
                  (globbed w "flute/csrc/*.cu")).
  { apply Forall_forall. intros y Hy. apply (globbed_cu w y Hy). }
  repeat split; [exact Hcpp | exact Hcu |].
  intros i j x y Hi Hx Hj Hy.
  apply lookup_app_Some in Hi as [Hi|[Hlen Hi]].
  - apply lookup_app_Some in Hj as [Hj|[Hlen Hj]].
    + exfalso. apply list_elem_of_lookup_2 in Hj.
      rewrite Forall_forall in Hcpp.
      exact (endswith_cpp_not_cu y (Hcpp y Hj) Hy).
    + apply lookup_lt_Some in Hi. lia.
  - exfalso. apply list_elem_of_lookup_2 in Hi.
    rewrite Forall_forall in Hcu.
    exact (endswith_cpp_not_cu x Hx (Hcu x Hi)).
Qed.

Lemma get_extensions_cpp_before_cu_witness :
  exists ext,
    result (get_extensions sample_world) = Ok [ext]
    /\ sources ext = ["flute/csrc/bindings.cpp"; "flute/csrc/utils.cpp";
                      "flute/csrc/qgemm.cu"].
Proof.
  destruct (get_extensions_cpp_before_cu sample_world) as (ext & Hr & Hs & _).
  exists ext. split; [exact Hr|]. rewrite Hs. vm_compute. reflexivity.
Defined.

(** ** The loop over the lines of a requirements file *)

Section resolve_lines.
Variable rec : string -> M (list string).

(** Lines that include nothing are appended as they are. *)
Lemma resolve_lines_plain lines acc :
  Forall (fun l => is_directive l = false) lines ->
  resolve_lines rec lines acc = ret (acc ++ lines).
Proof.
  intros H. revert acc.
  induction H as [|l lines Hl _ IH]; intros acc; cbn [resolve_lines].
  - rewrite app_nil_r. reflexivity.
  - unfold is_directive in Hl. rewrite Hl, IH, <- app_assoc. reflexivity.
Qed.

Lemma resolve_lines_app l1 l2 acc :
  resolve_lines rec (l1 ++ l2) acc
  = resolve_lines rec l1 acc ≫= resolve_lines rec l2.
Proof.
  revert acc.
  induction l1 as [|l l1 IH]; intros acc; cbn [resolve_lines app].
  - rewrite bind_ret_l. reflexivity.
  - destruct (PyStr.startswith l "-r "); [|apply IH].
    rewrite bind_assoc. apply bind_ext. intros filename.
    rewrite bind_assoc. apply bind_ext. intros included. apply IH.
Qed.

(** A line that includes [target]. *)
Lemma resolve_lines_directive line target lines acc :
  is_directive line = true ->
  PyStr.split line !! 1 = Some target ->
  resolve_lines rec (line :: lines) acc
  = rec target ≫= fun included => resolve_lines rec lines (acc ++ included).
Proof.
  intros Hd Ht. cbn [resolve_lines]. unfold is_directive in Hd. rewrite Hd.
  unfold getitem. rewrite Ht, bind_ret_l. reflexivity.
Qed.

(** The accumulator is a prefix of the result. *)
Lemma result_resolve_lines_acc lines acc :
  result (resolve_lines rec lines acc) =
  match result (resolve_lines rec lines []) with
  | Ok r => Ok (acc ++ r)
  | Raise e => Raise e
  | Deeper => Deeper
  end.
Proof.
  revert acc.
  induction lines as [|l lines IH]; intros acc; cbn [resolve_lines].
  - cbn. rewrite app_nil_r. reflexivity.
  - destruct (PyStr.startswith l "-r ").
    + rewrite !result_bind. destruct (result (getitem _ 1)); [|reflexivity..].
      rewrite !result_bind. destruct (result (rec a)) as [inc| |]; [|reflexivity..].
      rewrite (IH (acc ++ inc)), (IH ([] ++ inc)).
      destruct (result (resolve_lines rec lines [])); [|reflexivity..].
      rewrite app_assoc. reflexivity.
    + rewrite (IH (acc ++ [l])), (IH ([] ++ [l])).
      destruct (result (resolve_lines rec lines [])); [|reflexivity..].
      rewrite app_assoc. reflexivity.
Qed.
End resolve_lines.

(** A deeper budget does not change what a run returns. *)
Lemma resolve_lines_mono (rec1 rec2 : string -> M (list string)) lines acc r :
  (forall f x, result (rec1 f) = Ok x -> result (rec2 f) = Ok x) ->
  result (resolve_lines rec1 lines acc) = Ok r ->
  result (resolve_lines rec2 lines acc) = Ok r.
Proof.
  intros Hrec. revert acc.
  induction lines as [|l lines IH]; intros acc; cbn [resolve_lines]; [auto|].
  destruct (PyStr.startswith l "-r "); [|apply IH].
  rewrite !result_bind. destruct (result (getitem _ 1)) as [f| |]; try discriminate.
  rewrite !result_bind.
  destruct (result (rec1 f)) as [inc| |] eqn:H1; try discriminate.
  rewrite (Hrec _ _ H1). apply IH.
Qed.

(** ** The requirements loader *)

Lemma read_requirements_unfold depth w filename :
  _read_requirements (S depth) w filename
  = open_read w (get_path w [filename]) ≫= fun text =>
      resolve_lines (_read_requirements depth w)
        (PyStr.split_on Re.nl (PyStr.strip text)) [].
Proof. reflexivity. Qed.

Lemma read_requirements_file depth w filename text :
  files w !! get_path w [filename] = Some text ->
  _read_requirements (S depth) w filename
  = ([EvOpen (get_path w [filename])], Ok tt) ≫= fun _ =>
      resolve_lines (_read_requirements depth w)
        (PyStr.split_on Re.nl (PyStr.strip text)) [].
Proof.
  intros Hf. rewrite read_requirements_unfold, (open_read_file _ _ _ Hf).
  unfold mbind, M_bind, bind. reflexivity.
Qed.

Lemma read_requirements_mono depth w filename r :
  result (_read_requirements depth w filename) = Ok r ->
  result (_read_requirements (S depth) w filename) = Ok r.
Proof.
  revert filename r. induction depth as [|depth IH]; intros filename r.
  - discriminate.
  - rewrite !(read_requirements_unfold _ w filename), !result_bind.
    destruct (result (open_read _ _)); try discriminate.
    apply resolve_lines_mono. exact IH.
Qed.

(** C4: when a requirements file has a line [-r other] and the loader
    returns [included] for the other file, it returns for this file, one
    call deeper, a flat list in the order of the file: the lines before the
    directive, [included], and the lines after the directive, in case
    these lines include nothing; and in general what the lines before the
    directive resolve to, [included], and what the lines after it resolve
    to. *)
Theorem read_requirements_include (depth : nat) (w : World)
    (filename text line other : string)
    (before after included : list string) :
  files w !! get_path w [filename] = Some text ->
  PyStr.split_on Re.nl (PyStr.strip text) = before ++ line :: after ->
  is_directive line = true ->
  PyStr.split line !! 1 = Some other ->
  result (_read_requirements depth w other) = Ok included ->
  (Forall (fun l => is_directive l = false) before ->
   Forall (fun l => is_directive l = false) after ->
   result (_read_requirements (S depth) w filename)
   = Ok (before ++ included ++ after))
  /\ (forall resolved_before resolved_after,
        result (resolve_lines (_read_requirements depth w) before [])
        = Ok resolved_before ->
        result (resolve_lines (_read_requirements depth w) after [])
        = Ok resolved_after ->
        result (_read_requirements (S depth) w filename)
        = Ok (resolved_before ++ included ++ resolved_after)).
Proof.
  intros Hf Hlines Hd Ho Hinc.
  assert (Hgen : forall rb ra,
             result (resolve_lines (_read_requirements depth w) before [])
             = Ok rb ->
             result (resolve_lines (_read_requirements depth w) after [])
             = Ok ra ->
             result (_read_requirements (S depth) w filename)
             = Ok (rb ++ included ++ ra)).
  { intros rb ra Hb Ha.
    rewrite (read_requirements_file _ _ _ _ Hf), result_bind. cbn [result snd].
    rewrite Hlines, resolve_lines_app, (result_bind_ok _ _ _ Hb).
    rewrite (resolve_lines_directive _ _ _ _ _ Hd Ho).
    rewrite (result_bind_ok _ _ _ Hinc), result_resolve_lines_acc, Ha.
    rewrite <- app_assoc. reflexivity. }
  split; [|exact Hgen].
  intros Hb Ha. apply Hgen; rewrite resolve_lines_plain by assumption;
    reflexivity.
Qed.

Lemma read_requirements_include_witness :
  result (_read_requirements 2 sample_world "requirements.txt")
  = Ok (["numpy"] ++ ["ninja"; "packaging"] ++ [""; "torch"]).
Proof.
  apply (read_requirements_include 1 sample_world "requirements.txt"
           "numpy
-r other.txt

torch
" "-r other.txt" "other.txt").
  - vm_compute. reflexivity.
  - vm_compute. reflexivity.
  - reflexivity.
  - reflexivity.
  - vm_compute. reflexivity.
  - repeat constructor.
  - repeat constructor.
Defined.

Lemma read_requirements_cycle_both w a b text_a text_b
    before_a line_a after_a before_b line_b after_b :
  files w !! get_path w [a] = Some text_a ->
  PyStr.split_on Re.nl (PyStr.strip text_a) = before_a ++ line_a :: after_a ->
  Forall (fun l => is_directive l = false) before_a ->
  is_directive line_a = true -> PyStr.split line_a !! 1 = Some b ->
  files w !! get_path w [b] = Some text_b ->
  PyStr.split_on Re.nl (PyStr.strip text_b) = before_b ++ line_b :: after_b ->
  Forall (fun l => is_directive l = false) before_b ->
  is_directive line_b = true -> PyStr.split line_b !! 1 = Some a ->
  forall depth,
    _read_requirements depth w a
    = (cycle_opens (get_path w [a]) (get_path w [b]) depth, Deeper)
    /\ _read_requirements depth w b
       = (cycle_opens (get_path w [b]) (get_path w [a]) depth, Deeper).
Proof.
  intros Hfa Hla Hba Hda Hta Hfb Hlb Hbb Hdb Htb.
  induction depth as [|depth [IHa IHb]]; [split; reflexivity|].
  split.
  - rewrite (read_requirements_file _ _ _ _ Hfa), Hla, resolve_lines_app.
    rewrite (resolve_lines_plain _ _ _ Hba), bind_ret_l.
    rewrite (resolve_lines_directive _ _ _ _ _ Hda Hta), IHb. reflexivity.
  - rewrite (read_requirements_file _ _ _ _ Hfb), Hlb, resolve_lines_app.
    rewrite (resolve_lines_plain _ _ _ Hbb), bind_ret_l.
    rewrite (resolve_lines_directive _ _ _ _ _ Hdb Htb), IHa. reflexivity.
Qed.

(** C5, amended: the loader returns the lines of a file that includes
    nothing as they are, repeated lines included; and when a file includes,
    before any other directive, a file that in the same way includes the
    first one (the same file, for a file that includes itself), it never
    returns a list: whatever the room for nested calls, the loader opens
    the two files in turn that many times and is still inside the
    recursion, which nothing but the interpreter's recursion limit cuts,
    so that the run ends with [RecursionError]. *)
Theorem read_requirements_no_cycle_detection (w : World) :
  (forall depth filename text,
      files w !! get_path w [filename] = Some text ->
      Forall (fun l => is_directive l = false)
             (PyStr.split_on Re.nl (PyStr.strip text)) ->
      result (_read_requirements (S depth) w filename)
      = Ok (PyStr.split_on Re.nl (PyStr.strip text)))
  /\ (forall a b text_a text_b before_a line_a after_a before_b line_b after_b,
        files w !! get_path w [a] = Some text_a ->
        PyStr.split_on Re.nl (PyStr.strip text_a)
        = before_a ++ line_a :: after_a ->
        Forall (fun l => is_directive l = false) before_a ->
        is_directive line_a = true -> PyStr.split line_a !! 1 = Some b ->
        files w !! get_path w [b] = Some text_b ->
        PyStr.split_on Re.nl (PyStr.strip text_b)
        = before_b ++ line_b :: after_b ->
        Forall (fun l => is_directive l = false) before_b ->
        is_directive line_b = true -> PyStr.split line_b !! 1 = Some a ->
        forall depth,
          _read_requirements depth w a
          = (cycle_opens (get_path w [a]) (get_path w [b]) depth, Deeper)
          /\ at_recursion_limit (_read_requirements depth w a)
             = (cycle_opens (get_path w [a]) (get_path w [b]) depth,
                Raise RecursionError)
          /\ forall rs,
               result (at_recursion_limit (_read_requirements depth w a))
               <> Ok rs).
Proof.
  split.
  - intros depth filename text Hf Hplain.
    rewrite (read_requirements_file _ _ _ _ Hf), result_bind. cbn [result snd].
    rewrite (resolve_lines_plain _ _ _ Hplain). reflexivity.
  - intros a b text_a text_b before_a line_a after_a before_b line_b after_b
      Hfa Hla Hba Hda Hta Hfb Hlb Hbb Hdb Htb depth.
    destruct (read_requirements_cycle_both w a b text_a text_b
                before_a line_a after_a before_b line_b after_b
                Hfa Hla Hba Hda Hta Hfb Hlb Hbb Hdb Htb depth) as [-> _].
    repeat split. discriminate.
Qed.

Lemma read_requirements_no_cycle_detection_witness :
  result (_read_requirements 1 repeated_line_world "requirements.txt")
  = Ok ["numpy"; "torch"; "numpy"]
  /\ (forall depth,
        at_recursion_limit
          (_read_requirements depth self_including_world "requirements.txt")
        = (cycle_opens "requirements.txt" "requirements.txt" depth,
           Raise RecursionError))
  /\ (forall depth,
        at_recursion_limit
          (_read_requirements depth mutually_including_world "requirements.txt")
        = (cycle_opens "requirements.txt" "other.txt" depth,
           Raise RecursionError)).
Proof.
  split; [|split]; [|intros depth..].
  - apply (proj1 (read_requirements_no_cycle_detection repeated_line_world)
             0 "requirements.txt" "numpy
torch
numpy
").
    + vm_compute. reflexivity.
    + vm_compute. repeat constructor.
  - refine (proj1 (proj2
      (proj2 (read_requirements_no_cycle_detection self_including_world)
             "requirements.txt" "requirements.txt"
             "numpy
-r requirements.txt
" "numpy
-r requirements.txt
" ["numpy"] "-r requirements.txt" [] ["numpy"] "-r requirements.txt" []
             _ _ _ _ _ _ _ _ _ _ depth)));
      try (vm_compute; reflexivity); repeat constructor.
  - refine (proj1 (proj2
      (proj2 (read_requirements_no_cycle_detection mutually_including_world)
             "requirements.txt" "other.txt"
             "numpy
-r other.txt
" "ninja
-r requirements.txt
" ["numpy"] "-r other.txt" [] ["ninja"] "-r requirements.txt" []
             _ _ _ _ _ _ _ _ _ _ depth)));
      try (vm_compute; reflexivity); repeat constructor.
Defined.

(** C5, counterexample: run with room for 1000 nested calls, which is the
    interpreter's default limit on the call stack, the loader ends on a
    requirements file that includes itself, and on two files that include
    each other: with [RecursionError], after it opened the files 1000
    times.  The resolution terminates. *)
Lemma read_requirements_cycle_ends :
  at_recursion_limit (get_requirements 1000 self_including_world)
  = (repeat (EvOpen "requirements.txt") 1000, Raise RecursionError)
  /\ at_recursion_limit (get_requirements 1000 mutually_including_world)
     = (cycle_opens "requirements.txt" "other.txt" 1000, Raise RecursionError).
Proof. split; vm_compute; reflexivity. Qed.

(** C10: the loader strips the text of the file as a whole and cuts it at
    the newlines; so when the text has an empty line between two parts that
    are not blank, a list that the loader returns has the empty string as
    an entry, between what the lines of the first part and the lines of
    the second part resolve to. *)
Theorem read_requirements_keeps_blank_line (depth : nat) (w : World)
    (filename text a b : string) (rs : list string) :
  files w !! get_path w [filename] = Some text ->
  text = a +:+ String Re.nl (String Re.nl b) ->
  all_space a = false -> all_space b = false ->
  result (_read_requirements (S depth) w filename) = Ok rs ->
  PyStr.split_on Re.nl (PyStr.strip text)
  = PyStr.split_on Re.nl (PyStr.lstrip a)
    ++ "" :: PyStr.split_on Re.nl (PyStr.rstrip b)
  /\ exists r1 r2,
       rs = r1 ++ "" :: r2
       /\ result (resolve_lines (_read_requirements depth w)
                    (PyStr.split_on Re.nl (PyStr.lstrip a)) []) = Ok r1
       /\ result (resolve_lines (_read_requirements depth w)
                    (PyStr.split_on Re.nl (PyStr.rstrip b)) []) = Ok r2.
Proof.
  intros Hf -> Ha Hb Hrs.
  pose proof (lines_blank_between a b Ha Hb) as Hlines.
  split; [exact Hlines|]. revert Hrs.
  rewrite (read_requirements_file _ _ _ _ Hf), result_bind. cbn [result snd].
  rewrite Hlines, resolve_lines_app, result_bind.
  destruct (result (resolve_lines _ (PyStr.split_on Re.nl (PyStr.lstrip a)) []))
    as [r1| |]; try discriminate.
  cbn [resolve_lines]. change (PyStr.startswith "" "-r ") with false. cbv iota.
  rewrite result_resolve_lines_acc.
  destruct (result (resolve_lines _ (PyStr.split_on Re.nl (PyStr.rstrip b)) []))
    as [r2| |]; try discriminate.
  intros [= <-]. exists r1, r2. rewrite <- app_assoc. auto.
Qed.

Lemma read_requirements_keeps_blank_line_witness :
  result (_read_requirements 2 sample_world "requirements.txt")
  = Ok ["numpy"; "ninja"; "packaging"; ""; "torch"]
  /\ exists r1 r2,
       ["numpy"; "ninja"; "packaging"; ""; "torch"] = r1 ++ "" :: r2
       /\ result (resolve_lines (_read_requirements 1 sample_world)
                    ["numpy"; "-r other.txt"] []) = Ok r1
       /\ result (resolve_lines (_read_requirements 1 sample_world)
                    ["torch"] []) = Ok r2.
Proof.
  split; [vm_compute; reflexivity|].
  apply (read_requirements_keeps_blank_line 1 sample_world
           "requirements.txt" "numpy
-r other.txt

torch
" "numpy
-r other.txt" "torch
" ["numpy"; "ninja"; "packaging"; ""; "torch"]);
    vm_compute; reflexivity.
Defined.


(** * Further properties *)

(** ** The version probe: what it runs and how it fails *)

Lemma index_None x l : x ∉ l -> PyStr.index x l = None.
Proof.
  induction l as [|y l IH]; simpl; intros Hx; [reflexivity|].
  apply not_elem_of_cons in Hx as [Hxy Hx].
  destruct (String.eqb_spec y x) as [->|_]; [congruence|].
  rewrite (IH Hx). reflexivity.
Qed.

Lemma trace_getitem l i : trace (getitem l i) = [].
Proof. unfold getitem. destruct (l !! i); reflexivity. Qed.

Lemma trace_parse version : trace (parse version) = [].
Proof. unfold parse. destruct (Packaging.parse version); reflexivity. Qed.

Lemma trace_run_check_output w argv :
  trace (run_check_output w argv) = [EvExec argv].
Proof.
  unfold run_check_output. rewrite trace_bind. simpl.
  destruct (check_output w argv); reflexivity.
Qed.

Lemma result_run_check_output_inl w argv e :
  check_output w argv = inl e -> result (run_check_output w argv) = Raise e.
Proof.
  intros H. unfold run_check_output. rewrite result_bind, H. reflexivity.
Qed.

(** What precedes the first comma of a token is the first piece that
    [split(",")] cuts. *)
Lemma split_on_comma_head number rest :
  mem_chr "," number = false ->
  rest = "" \/ (exists r, rest = String "," r) ->
  exists ws, PyStr.split_on "," (number +:+ rest) = number :: ws.
Proof.
  intros Hn Hrest. induction number as [|c number IH].
  - destruct Hrest as [->|[r ->]]; simpl; eauto.
  - simpl in Hn. apply orb_false_iff in Hn as [Hc Hn].
    destruct (IH Hn) as (ws & Hws).
    rewrite string_app_cons. simpl. rewrite chr_eqb_sym, Hc, Hws. eauto.
Qed.

(** X1: with the toolchain path set, the probe performs one external
    operation whatever happens next, the launch of [bin/nvcc -V] under
    that path; and when the launch ends with an exception, the probe ends
    with the same exception. *)
Theorem get_nvcc_cuda_version_launch (w : World) (home : string) :
  CUDA_HOME w = Some home ->
  trace (get_nvcc_cuda_version w)
  = [EvExec [OsPath.join home ["bin/nvcc"]; "-V"]]
  /\ forall e,
       check_output w [OsPath.join home ["bin/nvcc"]; "-V"] = inl e ->
       result (get_nvcc_cuda_version w) = Raise e.
Proof.
  intros Hhome. unfold get_nvcc_cuda_version. rewrite Hhome. split.
  - rewrite trace_bind, trace_run_check_output.
    destruct (result (run_check_output _ _)) as [out| |]; [|reflexivity..].
    destruct (PyStr.index _ _) as [i|]; [|reflexivity].
    rewrite trace_bind, trace_getitem.
    destruct (result (getitem _ _)) as [token| |]; [|reflexivity..].
    rewrite trace_bind, trace_getitem.
    destruct (result (getitem _ _)) as [number| |]; [|reflexivity..].
    rewrite trace_bind, trace_parse.
    destruct (result (parse number)); reflexivity.
  - intros e He.
    rewrite result_bind, (result_run_check_output_inl _ _ _ He). reflexivity.
Qed.

Lemma get_nvcc_cuda_version_launch_witness :
  trace (get_nvcc_cuda_version sample_world)
  = [EvExec ["/usr/local/cuda/bin/nvcc"; "-V"]].
Proof.
  exact (proj1 (get_nvcc_cuda_version_launch sample_world "/usr/local/cuda"
                  eq_refl)).
Defined.

(** X2: when what [nvcc -V] prints has no token [release], the probe
    raises [ValueError]; when its first token [release] is the last token,
    the probe raises [IndexError]. *)
Theorem get_nvcc_cuda_version_no_release (w : World) (home text : string) :
  CUDA_HOME w = Some home ->
  check_output w [OsPath.join home ["bin/nvcc"]; "-V"] = inr text ->
  ("release" ∉ PyStr.split text ->
   result (get_nvcc_cuda_version w) = Raise ValueError)
  /\ (forall l1,
        PyStr.split text = l1 ++ ["release"] -> "release" ∉ l1 ->
        result (get_nvcc_cuda_version w) = Raise IndexError).
Proof.
  intros Hhome Hout. unfold get_nvcc_cuda_version.
  rewrite Hhome, (result_bind_ok _ _ _ (result_run_check_output _ _ _ Hout)).
  split.
  - intros Hno. rewrite (index_None _ _ Hno). reflexivity.
  - intros l1 Hsplit Hfirst. rewrite Hsplit, (index_first _ _ _ Hfirst).
    rewrite result_bind. unfold getitem at 1.
    rewrite lookup_ge_None_2; [reflexivity|].
    rewrite length_app. simpl. lia.
Qed.

Lemma get_nvcc_cuda_version_no_release_witness :
  result (get_nvcc_cuda_version
            (with_nvcc_output "nvcc: command line interface" sample_world))
  = Raise ValueError
  /\ result (get_nvcc_cuda_version
               (with_nvcc_output "Cuda compilation tools, release" sample_world))
     = Raise IndexError.
Proof.
  split.
  - apply (proj1 (get_nvcc_cuda_version_no_release
                    (with_nvcc_output "nvcc: command line interface" sample_world)
                    "/usr/local/cuda" "nvcc: command line interface"
                    eq_refl eq_refl)).
    intros H. apply list_elem_of_In in H. vm_compute in H. intuition discriminate.
  - apply (proj2 (get_nvcc_cuda_version_no_release
                    (with_nvcc_output "Cuda compilation tools, release" sample_world)
                    "/usr/local/cuda" "Cuda compilation tools, release"
                    eq_refl eq_refl) ["Cuda"; "compilation"; "tools,"]).
    + vm_compute. reflexivity.
    + intros H. apply list_elem_of_In in H. vm_compute in H. intuition discriminate.
Defined.

(** X3: the probe reads the token after the first [release] up to its
    first comma and nothing else: when that text is no longer than the
    longest run of digits that [int] accepts, the probe returns what the
    text parses to as a version, and raises [InvalidVersion] when it does
    not parse. *)
Theorem get_nvcc_cuda_version_token (w : World) (home text : string)
    (l1 l2 : list string) (number rest : string) :
  CUDA_HOME w = Some home ->
  check_output w [OsPath.join home ["bin/nvcc"]; "-V"] = inr text ->
  PyStr.split text = l1 ++ "release" :: (number +:+ rest) :: l2 ->
  "release" ∉ l1 ->
  mem_chr "," number = false ->
  rest = "" \/ (exists r, rest = String "," r) ->
  String.length number <= int_max_str_digits ->
  result (get_nvcc_cuda_version w)
  = match Packaging.parse number with
    | Some v => Ok v
    | None => Raise (InvalidVersion number)
    end.
Proof.
  intros Hhome Hout Hsplit Hfirst Hn Hrest _.
  rewrite (get_nvcc_cuda_version_first_release _ _ _ _ _ _ Hhome Hout Hsplit Hfirst).
  destruct (split_on_comma_head number rest Hn Hrest) as (ws & Hws).
  rewrite (result_bind_ok _ _ number).
  - unfold parse. destruct (Packaging.parse number); reflexivity.
  - apply result_getitem. rewrite Hws. reflexivity.
Qed.

Lemma get_nvcc_cuda_version_token_witness :
  result (get_nvcc_cuda_version
            (with_nvcc_output "release 11.8,beta V11" sample_world))
  = Ok (release_version [11%N; 8%N])
  /\ result (get_nvcc_cuda_version
               (with_nvcc_output "release unknown, V11" sample_world))
     = Raise (InvalidVersion "unknown").
Proof.
  split.
  - apply (get_nvcc_cuda_version_token
             (with_nvcc_output "release 11.8,beta V11" sample_world)
             "/usr/local/cuda" "release 11.8,beta V11" [] ["V11"]
             "11.8" ",beta"); try reflexivity.
    + intros H. inversion H.
    + right. eexists. reflexivity.
    + unfold int_max_str_digits. simpl. lia.
  - apply (get_nvcc_cuda_version_token
             (with_nvcc_output "release unknown, V11" sample_world)
             "/usr/local/cuda" "release unknown, V11" [] ["V11"]
             "unknown" ","); try reflexivity.
    + intros H. inversion H.
    + right. eexists. reflexivity.
    + unfold int_max_str_digits. simpl. lia.
Defined.


(** ** The version file: when the search succeeds *)

Lemma search_from_anchored bol pre q1 v q2 post :
  (pre = "" /\ bol = true) \/ (exists p, pre = p +:+ String Re.nl "") ->
  Re.is_quote q1 = true -> Re.is_quote q2 = true -> quote_free v = true ->
  exists g, Re.search_from bol (pre +:+ version_line q1 v q2 +:+ post) = Some g.
Proof.
  intros Hpre H1 H2 Hv. revert bol Hpre.
  induction pre as [|c pre IH]; intros bol Hpre; rewrite search_from_unfold.
  - destruct Hpre as [[_ ->]|[p Hp]]; [|destruct p; discriminate].
    change ("" +:+ ?s) with s. rewrite match_version_line by assumption. eauto.
  - destruct (if bol then Re.match_version _ else None) as [g|]; [eauto|].
    rewrite string_app_cons. cbv iota. apply IH.
    destruct Hpre as [[? _]|[p Hp]]; [discriminate|].
    destruct p as [|d p]; [left | right].
    + injection Hp as -> ->. split; [reflexivity | apply chr_eqb_refl].
    + injection Hp as _ ->. eauto.
Qed.

Lemma string_app_length_eq (a b c d : string) :
  a +:+ b = c +:+ d -> String.length a = String.length c -> a = c /\ b = d.
Proof.
  revert c. induction a as [|x a IH]; intros [|y c]; try discriminate.
  - intros H _. split; [reflexivity|exact H].
  - rewrite !string_app_cons. intros [= -> H] [= Hl].
    destruct (IH c H Hl) as [-> ->]. auto.
Qed.

Lemma search_from_leftmost bol s v :
  Re.search_from bol s = Some v ->
  exists pre q1 q2 post,
    s = pre +:+ version_line q1 v q2 +:+ post
    /\ ((pre = "" /\ bol = true) \/ exists p, pre = p +:+ String Re.nl "")
    /\ Re.is_quote q1 = true /\ Re.is_quote q2 = true /\ quote_free v = true
    /\ forall pre' q1' v' q2' post',
         s = pre' +:+ version_line q1' v' q2' +:+ post' ->
         (pre' = "" /\ bol = true) \/ (exists p, pre' = p +:+ String Re.nl "") ->
         Re.is_quote q1' = true -> Re.is_quote q2' = true ->
         quote_free v' = true ->
         String.length pre <= String.length pre'.
Proof.
  revert bol. induction s as [|c s IH]; intros bol; rewrite search_from_unfold.
  - destruct bol; [|discriminate].
    destruct (Re.match_version "") eqn:Hm; [|discriminate].
    intros [= ->]. destruct (match_version_Some _ _ Hm) as (q1 & q2 & r & ? & ? & ? & ?).
    exists "", q1, q2, r. repeat split; auto. intros. simpl. lia.
  - destruct (if bol then Re.match_version (String c s) else None) as [g|] eqn:Hm.
    + intros [= ->]. destruct bol; [|discriminate].
      destruct (match_version_Some _ _ Hm) as (q1 & q2 & r & ? & ? & ? & ?).
      exists "", q1, q2, r. repeat split; auto. intros. simpl. lia.
    + intros (pre & q1 & q2 & post & -> & Hpre & H1 & H2 & Hv & Hmin)%IH.
      exists (String c pre), q1, q2, post. split; [reflexivity|].
      split; [|repeat split; try assumption].
      * right. destruct Hpre as [[-> Hc]|[p ->]].
        -- apply chr_eqb_eq in Hc as ->. exists "". reflexivity.
        -- exists (String c p). reflexivity.
      * intros pre' q1' v' q2' post' Heq Hpre' H1' H2' Hv'.
        destruct pre' as [|c' pre'].
        -- destruct Hpre' as [[_ ->]|[p Hp]]; [|destruct p; discriminate].
           change ("" +:+ ?x) with x in Heq. rewrite Heq in Hm.
           rewrite match_version_line in Hm by assumption. discriminate.
        -- rewrite string_app_cons in Heq. injection Heq as <- Heq.
           simpl. apply le_n_S. apply (Hmin pre' q1' v' q2' post' Heq); try assumption.
           destruct Hpre' as [[? _]|[p Hp]]; [discriminate|].
           destruct p as [|d p].
           ++ injection Hp as -> ->. left. split; [reflexivity|apply chr_eqb_refl].
           ++ injection Hp as _ ->. right. eauto.
Qed.

(** X4: [find_version] returns [v] exactly when the file can be opened
    and [v] is the value of the leftmost assignment in its text: the text
    has, at its start or right after a newline, the literal
    [__version__ = ], a quote character, [v], which has no quote character,
    and a quote character again, and it has no such assignment at an
    earlier place. *)
Theorem find_version_returns_iff (w : World) (filepath v : string) :
  result (find_version w filepath) = Ok v
  <-> exists text pre,
        files w !! filepath = Some text
        /\ assigned_after text pre v
        /\ forall pre' v',
             assigned_after text pre' v' ->
             String.length pre <= String.length pre'.
Proof.
  split.
  - intros Hv. unfold find_version in Hv.
    rewrite result_bind, result_open_read in Hv.
    destruct (files w !! filepath) as [text|] eqn:Hf; [|discriminate].
    destruct (Re.search_version text) as [g|] eqn:Hs; [|discriminate].
    injection Hv as ->.
    destruct (search_from_leftmost _ _ _ Hs)
      as (pre & q1 & q2 & post & Heq & Hpre & H1 & H2 & Hq & Hmin).
    exists text, pre. split; [reflexivity|]. split.
    + exists q1, q2, post. repeat split; try assumption.
      destruct Hpre as [[-> _]|Hp]; auto.
    + intros pre' v' (q1' & q2' & post' & Heq' & Hpre' & H1' & H2' & Hq').
      apply (Hmin pre' q1' v' q2' post'); try assumption.
      destruct Hpre' as [->|Hp]; auto.
  - intros (text & pre & Hf & (q1 & q2 & post & Heq & Hpre & H1 & H2 & Hq) & Hmin).
    rewrite (result_find_version _ _ _ Hf). unfold Re.search_version.
    destruct (search_from_anchored true pre q1 v q2 post) as [g Hg];
      try assumption.
    { destruct Hpre as [->|Hp]; auto. }
    rewrite <- Heq in Hg. rewrite Hg.
    destruct (search_from_leftmost _ _ _ Hg)
      as (pre' & q1' & q2' & post' & Heq' & Hpre' & H1' & H2' & Hq' & Hmin').
    assert (Hle : String.length pre <= String.length pre').
    { apply (Hmin pre' g). exists q1', q2', post'. repeat split; try assumption.
      destruct Hpre' as [[-> _]|Hp]; auto. }
    assert (Hge : String.length pre' <= String.length pre).
    { apply (Hmin' pre q1 v q2 post); try assumption.
      destruct Hpre as [->|Hp]; auto. }
    rewrite Heq in Heq'.
    destruct (string_app_length_eq _ _ _ _ Heq' ltac:(lia)) as [_ Hrest].
    pose proof (match_version_line q1 v q2 post H1 H2 Hq) as Hm.
    rewrite Hrest, match_version_line in Hm by assumption.
    injection Hm as ->. reflexivity.
Qed.

(** ** The version string: the order of its failures *)

(** X5: when [find_version] ends with an exception, because the version
    file cannot be opened or holds no version literal, [get_version] ends
    with the same exception and has only tried to open that file: the
    toolchain is not probed, whether its path is set or not. *)
Theorem get_version_version_file_first (w : World) (e : exn) :
  result (find_version w (get_path w [LIBRARY_NAME; "__init__.py"])) = Raise e ->
  get_version w = ([EvOpen (get_path w [LIBRARY_NAME; "__init__.py"])], Raise e).
Proof.
  intros He. unfold get_version.
  pose proof (trace_find_version w (get_path w [LIBRARY_NAME; "__init__.py"])) as Ht.
  destruct (find_version w (get_path w [LIBRARY_NAME; "__init__.py"])) as [t r].
  simpl in He, Ht. subst t r. reflexivity.
Qed.

Lemma get_version_version_file_first_witness :
  get_version (with_file "flute/__init__.py" "version = '1.0.0'" sample_world)
  = ([EvOpen "flute/__init__.py"],
     Raise (RuntimeError "Unable to find version string.")).
Proof.
  apply (get_version_version_file_first
           (with_file "flute/__init__.py" "version = '1.0.0'" sample_world)).
  vm_compute. reflexivity.
Defined.


(** ** The version string: the digits after [+cu] *)

Lemma all_digits_app s t :
  Packaging.all_digits (s +:+ t)
  = Packaging.all_digits s && Packaging.all_digits t.
Proof.
  induction s as [|c s IH]; [reflexivity|].
  rewrite string_app_cons. simpl. rewrite IH, andb_assoc. reflexivity.
Qed.

Lemma all_digits_string_of_uint d :
  Packaging.all_digits (NilEmpty.string_of_uint d) = true.
Proof. induction d; simpl; try rewrite IHd; reflexivity. Qed.

Lemma all_digits_str_int n : Packaging.all_digits (PyStr.str_int n) = true.
Proof.
  unfold PyStr.str_int, NilZero.string_of_uint.
  destruct (N.to_uint n) eqn:E; try reflexivity;
    rewrite <- E; apply all_digits_string_of_uint.
Qed.

Lemma replace_app old new s t :
  PyStr.replace old new (s +:+ t)
  = PyStr.replace old new s +:+ PyStr.replace old new t.
Proof.
  induction s as [|c s IH]; [reflexivity|].
  rewrite string_app_cons. simpl. rewrite IH.
  destruct (PyStr.chr_eqb c old); [|reflexivity].
  rewrite string_app_assoc. reflexivity.
Qed.

Lemma isdigit_not_dot c : PyStr.isdigit c = true -> PyStr.chr_eqb c "." = false.
Proof.
  destruct (PyStr.chr_eqb c ".") eqn:H; [|reflexivity].
  apply chr_eqb_eq in H as ->. discriminate.
Qed.

Lemma replace_dot_digits s :
  Packaging.all_digits s = true -> PyStr.replace "." "" s = s.
Proof.
  induction s as [|c s IH]; [reflexivity|]. simpl.
  intros [Hc Hs]%andb_true_iff.
  rewrite (isdigit_not_dot _ Hc), (IH Hs). reflexivity.
Qed.

(** The numbers of a release, written without the dots between them, are
    digits. *)
Lemma all_digits_release numbers :
  Packaging.all_digits
    (PyStr.replace "." "" (PyStr.join "." (map PyStr.str_int numbers))) = true.
Proof.
  unfold PyStr.join. induction numbers as [|n numbers IH]; [reflexivity|].
  pose proof (all_digits_str_int n) as Hn.
  cbn [map String.concat]. destruct (map PyStr.str_int numbers) as [|x xs] eqn:E.
  - rewrite (replace_dot_digits _ Hn). exact Hn.
  - rewrite !replace_app, (replace_dot_digits _ Hn), !all_digits_app, Hn, IH.
    reflexivity.
Qed.

Lemma to_str_release_version numbers :
  Packaging.to_str (release_version numbers)
  = PyStr.join "." (map PyStr.str_int numbers).
Proof.
  unfold Packaging.to_str, release_version. simpl.
  change ("" +:+ ?s) with s.
  generalize (PyStr.join "." (map PyStr.str_int numbers)). intros s.
  induction s as [|c s IH]; [reflexivity|].
  rewrite string_app_cons, IH. reflexivity.
Qed.

Lemma all_digits_slice_to n s :
  Packaging.all_digits s = true ->
  Packaging.all_digits (PyStr.slice_to n s) = true.
Proof.
  unfold PyStr.slice_to. revert s.
  induction n as [|n IH]; intros [|c s]; simpl; try reflexivity.
  intros [Hc Hs]%andb_true_iff. rewrite Hc. apply IH, Hs.
Qed.

Lemma slice_to_3 s :
  3 <= String.length s ->
  exists d1 d2 d3 : ascii,
    PyStr.slice_to 3 s = String d1 (String d2 (String d3 "")).
Proof.
  destruct s as [|d1 [|d2 [|d3 s]]]; simpl; try lia. intros _.
  exists d1, d2, d3. unfold PyStr.slice_to. simpl. destruct s; reflexivity.
Qed.

(** What [get_version] returns when its three parts are there. *)
Lemma result_get_version w base nvcc torch :
  result (find_version w (get_path w [LIBRARY_NAME; "__init__.py"])) = Ok base ->
  result (get_nvcc_cuda_version w) = Ok nvcc ->
  Packaging.parse (torch_version w) = Some torch ->
  result (get_version w)
  = Ok (base +:+ "+cu"
        +:+ PyStr.slice_to 3 (PyStr.replace "." "" (Packaging.to_str nvcc))
        +:+ "torch" +:+ PyStr.str_int (Packaging.major torch) +:+ "."
        +:+ PyStr.str_int (Packaging.minor torch)).
Proof.
  intros Hbase Hnvcc Htorch. unfold get_version.
  rewrite (result_bind_ok _ _ _ Hbase), (result_bind_ok _ _ _ Hnvcc).
  rewrite (result_bind_ok _ _ _ (result_parse _ _ Htorch)). reflexivity.
Qed.

(** X6: when the probe returns a version that is a plain release (numbers
    separated by dots, nothing else), the characters that [get_version]
    puts between [+cu] and [torch] are digits; and when the numbers of the
    release have at least three digits together, they are exactly three
    digits. *)
Theorem get_version_release_digits (w : World) (base : string)
    (numbers : list N) (torch : Packaging.Version) :
  result (find_version w (get_path w [LIBRARY_NAME; "__init__.py"])) = Ok base ->
  result (get_nvcc_cuda_version w) = Ok (release_version numbers) ->
  Packaging.parse (torch_version w) = Some torch ->
  exists cu v,
    result (get_version w) = Ok v
    /\ v = base +:+ "+cu" +:+ cu +:+ "torch"
           +:+ PyStr.str_int (Packaging.major torch) +:+ "."
           +:+ PyStr.str_int (Packaging.minor torch)
    /\ Packaging.all_digits cu = true
    /\ (3 <= String.length
               (PyStr.replace "." "" (PyStr.join "." (map PyStr.str_int numbers))) ->
        three_digit_form base v).
Proof.
  intros Hbase Hnvcc Htorch.
  pose proof (result_get_version _ _ _ _ Hbase Hnvcc Htorch) as Hrun.
  rewrite to_str_release_version in Hrun.
  set (digits := PyStr.replace "." "" (PyStr.join "." (map PyStr.str_int numbers))) in *.
  assert (Hd : Packaging.all_digits (PyStr.slice_to 3 digits) = true)
    by apply all_digits_slice_to, all_digits_release.
  eexists _, _. split; [exact Hrun|]. split; [reflexivity|].
  split; [exact Hd|]. intros Hlen.
  destruct (slice_to_3 digits Hlen) as (d1 & d2 & d3 & Hs).
  rewrite Hs in Hd |- *. simpl in Hd.
  apply andb_true_iff in Hd as [H1 [H2 [H3 _]%andb_true_iff]%andb_true_iff].
  exists d1, d2, d3, (Packaging.major torch), (Packaging.minor torch).
  repeat split; assumption || reflexivity.
Qed.

Lemma get_version_release_digits_witness :
  exists cu v,
    result (get_version sample_world) = Ok v
    /\ v = "1.0.0" +:+ "+cu" +:+ cu +:+ "torch"
           +:+ PyStr.str_int 2 +:+ "." +:+ PyStr.str_int 3
    /\ Packaging.all_digits cu = true
    /\ (3 <= String.length
               (PyStr.replace "." ""
                  (PyStr.join "." (map PyStr.str_int [12%N; 1%N]))) ->
        three_digit_form "1.0.0" v).
Proof.
  apply (get_version_release_digits sample_world "1.0.0" [12%N; 1%N]
           (release_version [2%N; 3%N; 1%N])); vm_compute; reflexivity.
Defined.


(** ** The sources of the extension, entry by entry *)

Lemma endswith_split s p :
  PyStr.endswith s p = true -> exists pre, s = pre +:+ p.
Proof.
  induction s as [|c s IH]; rewrite endswith_unfold.
  - destruct (String.eqb_spec "" p) as [<-|_]; [|discriminate]. exists "". reflexivity.
  - destruct (String.eqb_spec (String c s) p) as [<-|_].
    + exists "". reflexivity.
    + intros [pre ->]%IH. exists (String c pre). reflexivity.
Qed.

Lemma fnmatch_plain_refl pat :
  mem_chr "*" pat = false -> mem_chr "?" pat = false ->
  Glob.fnmatch pat pat = true.
Proof.
  induction pat as [|c pat IH]; [reflexivity|]. cbn [mem_chr].
  intros [Hs1%chr_eqb_neq Hs2]%orb_false_iff [Hq1%chr_eqb_neq Hq2]%orb_false_iff.
  rewrite fnmatch_plain_cons by congruence.
  rewrite chr_eqb_refl. apply IH; assumption.
Qed.

Lemma fnmatch_star_app pat pre suf :
  Glob.fnmatch pat suf = true ->
  Glob.fnmatch (String "*" pat) (pre +:+ suf) = true.
Proof.
  intros H. induction pre as [|c pre IH]; rewrite fnmatch_star.
  - change ("" +:+ suf) with suf. rewrite H. reflexivity.
  - rewrite string_app_cons, IH. apply orb_true_r.
Qed.

(** A star and a plain extension match the names that end in the
    extension. *)
Lemma fnmatch_star_iff ext n :
  mem_chr "*" ext = false -> mem_chr "?" ext = false ->
  Glob.fnmatch (String "*" ext) n = true <-> PyStr.endswith n ext = true.
Proof.
  intros Hs Hq. split; [apply fnmatch_star_endswith; assumption|].
  intros [pre ->]%endswith_split.
  apply fnmatch_star_app, fnmatch_plain_refl; assumption.
Qed.

Lemma glob1_star entries ext :
  mem_chr "*" ext = false -> mem_chr "?" ext = false ->
  Glob.glob1 entries (String "*" ext) = filter (picked ext) (default [] entries).
Proof.
  intros Hs Hq. unfold Glob.glob1.
  change (Glob.ishidden (String "*" ext)) with false. cbv iota.
  rewrite list_filter_filter. apply list_filter_iff. intros n. unfold picked.
  rewrite (fnmatch_star_iff ext n Hs Hq), negb_true_iff. tauto.
Qed.

Lemma globbed_cpp_entries w :
  globbed w "flute/csrc/*.cpp"
  = map source_path (filter (picked ".cpp") (source_entries w)).
Proof.
  unfold_source_glob. rewrite (glob1_star _ ".cpp") by reflexivity. reflexivity.
Qed.

Lemma globbed_cu_entries w :
  globbed w "flute/csrc/*.cu"
  = map source_path (filter (picked ".cu") (source_entries w)).
Proof.
  unfold_source_glob. rewrite (glob1_star _ ".cu") by reflexivity. reflexivity.
Qed.

Lemma source_path_unfold name :
  source_path name
  = if PyStr.startswith name "/" then name else "flute/csrc/" +:+ name.
Proof. reflexivity. Qed.

Lemma source_path_inj n m : source_path n = source_path m -> n = m.
Proof.
  rewrite !source_path_unfold.
  destruct (PyStr.startswith n "/") eqn:Hn, (PyStr.startswith m "/") eqn:Hm;
    intros H.
  - exact H.
  - subst n. discriminate.
  - subst m. discriminate.
  - apply (inj (String.app "flute/csrc/")) in H. exact H.
Qed.

(** X7: the sources of the extension descriptor are, in the order in
    which the system lists the source directory, the entries that are not
    hidden and end in [.cpp], then those that are not hidden and end in
    [.cu], each as a path under [flute/csrc]; an entry that is hidden or
    ends in neither extension gives no source. *)
Theorem get_extensions_sources (w : World) :
  exists ext,
    result (get_extensions w) = Ok [ext]
    /\ sources ext
       = map source_path (filter (picked ".cpp") (source_entries w))
         ++ map source_path (filter (picked ".cu") (source_entries w))
    /\ (forall name,
          source_path name ∈ sources ext <->
          name ∈ source_entries w
          /\ Glob.ishidden name = false
          /\ (PyStr.endswith name ".cpp" = true
              \/ PyStr.endswith name ".cu" = true))
    /\ (forall name,
          PyStr.startswith name "/" = false ->
          source_path name = "flute/csrc/" +:+ name).
Proof.
  destruct (get_extensions_run w) as (ext & Hrun & _ & Hsrc).
  exists ext. rewrite Hrun, Hsrc, globbed_cpp_entries, globbed_cu_entries.
  split; [reflexivity|]. split; [reflexivity|]. split.
  - intros name. rewrite elem_of_app. split.
    + intros [H|H]; apply list_elem_of_In, in_map_iff in H
        as (n & ->%source_path_inj & [[Hh He] Hn]%list_elem_of_In%list_elem_of_filter);
        auto.
    + intros (Hn & Hh & [He|He]); [left | right];
        apply list_elem_of_In, in_map_iff; exists name;
        (split; [reflexivity|]);
        apply list_elem_of_In, list_elem_of_filter; unfold picked; auto.
  - intros name Hrel. rewrite source_path_unfold, Hrel. reflexivity.
Qed.

(** X8: when the system lists no entry of the source directory twice, no
    path stands twice in the sources of the extension descriptor. *)
Theorem get_extensions_sources_NoDup (w : World) :
  NoDup (source_entries w) ->
  exists ext, result (get_extensions w) = Ok [ext] /\ NoDup (sources ext).
Proof.
  intros Hnd. destruct (get_extensions_run w) as (ext & Hrun & _ & Hsrc).
  exists ext. rewrite Hrun. split; [reflexivity|]. rewrite Hsrc.
  apply NoDup_app. split; [|split].
  - rewrite globbed_cpp_entries. apply NoDup_fmap_2_strong.
    + intros x y _ _. apply source_path_inj.
    + apply NoDup_filter, Hnd.
  - intros x Hcpp%globbed_cpp Hcu%globbed_cu.
    exact (endswith_cpp_not_cu x Hcpp Hcu).
  - rewrite globbed_cu_entries. apply NoDup_fmap_2_strong.
    + intros x y _ _. apply source_path_inj.
    + apply NoDup_filter, Hnd.
Qed.

Lemma get_extensions_sources_NoDup_witness :
  exists ext,
    result (get_extensions sample_world) = Ok [ext] /\ NoDup (sources ext).
Proof.
  apply (get_extensions_sources_NoDup sample_world).
  vm_compute. repeat constructor; intros H; apply list_elem_of_In in H;
    simpl in H; intuition discriminate.
Defined.


(** ** The requirements loader: edges and errors *)

Lemma lstrip_all_space s : all_space s = true -> PyStr.lstrip s = "".
Proof.
  induction s as [|c s IH]; [reflexivity|]. simpl.
  intros [Hc Hs]%andb_true_iff. rewrite Hc. apply IH, Hs.
Qed.

Lemma strip_all_space s : all_space s = true -> PyStr.strip s = "".
Proof. intros H. unfold PyStr.strip. rewrite (lstrip_all_space s H). reflexivity. Qed.

(** X9: for a requirements file that is empty or holds only whitespace,
    the loader returns one entry, the empty string, not the empty list. *)
Theorem read_requirements_blank_file (depth : nat) (w : World)
    (filename text : string) :
  files w !! get_path w [filename] = Some text ->
  all_space text = true ->
  _read_requirements (S depth) w filename
  = ([EvOpen (get_path w [filename])], Ok [""]).
Proof.
  intros Hf Hs. rewrite (read_requirements_file _ _ _ _ Hf), (strip_all_space _ Hs).
  reflexivity.
Qed.

Lemma read_requirements_blank_file_witness :
  _read_requirements 1 (with_file "requirements.txt" (unlines [""; "  "]) sample_world) "requirements.txt"
  = ([EvOpen "requirements.txt"], Ok [""]).
Proof.
  apply (read_requirements_blank_file 0
           (with_file "requirements.txt" (unlines [""; "  "]) sample_world) "requirements.txt" (unlines [""; "  "])); vm_compute; reflexivity.
Defined.

Lemma open_read_raises w path e :
  result (open_read w path) = Raise e ->
  open_read w path = ([EvOpen path], Raise e).
Proof.
  unfold open_read. cbn. destruct (files w !! path); [discriminate|].
  cbn. intros [= <-]. reflexivity.
Qed.

(** X10: an exception that [open] ends with for a requirements file is
    the exception the loader ends with, and that attempt is all the loader
    has done; when the file is one that a directive includes, after lines
    that include nothing, the loader has opened the including file and
    tried the included one, and the lines after the directive are not
    looked at. *)
Theorem read_requirements_open_error (depth : nat) (w : World)
    (filename : string) (e : exn) :
  (result (open_read w (get_path w [filename])) = Raise e ->
   _read_requirements (S depth) w filename
   = ([EvOpen (get_path w [filename])], Raise e))
  /\ (forall text before line after other,
        files w !! get_path w [filename] = Some text ->
        PyStr.split_on Re.nl (PyStr.strip text) = before ++ line :: after ->
        Forall (fun l => is_directive l = false) before ->
        is_directive line = true ->
        PyStr.split line !! 1 = Some other ->
        result (open_read w (get_path w [other])) = Raise e ->
        _read_requirements (S (S depth)) w filename
        = ([EvOpen (get_path w [filename]); EvOpen (get_path w [other])],
           Raise e)).
Proof.
  split.
  - intros He. rewrite read_requirements_unfold, (open_read_raises _ _ _ He).
    reflexivity.
  - intros text before line after other Hf Hlines Hb Hd Ho He.
    rewrite (read_requirements_file _ _ _ _ Hf), Hlines, resolve_lines_app.
    rewrite (resolve_lines_plain _ _ _ Hb), bind_ret_l.
    rewrite (resolve_lines_directive _ _ _ _ _ Hd Ho).
    rewrite read_requirements_unfold, (open_read_raises _ _ _ He).
    reflexivity.
Qed.

Lemma read_requirements_open_error_witness :
  _read_requirements 2 (with_file "requirements.txt" "numpy
-r extra.txt
torch" sample_world) "requirements.txt"
  = ([EvOpen "requirements.txt"; EvOpen "extra.txt"],
     Raise (FileNotFoundError "extra.txt")).
Proof.
  apply (proj2 (read_requirements_open_error 0
                  (with_file "requirements.txt" "numpy
-r extra.txt
torch" sample_world) "requirements.txt" (FileNotFoundError "extra.txt"))
           "numpy
-r extra.txt
torch" ["numpy"] "-r extra.txt" ["torch"] "extra.txt");
    try (vm_compute; reflexivity).
  repeat constructor.
Defined.

(** X11: a line that starts with [-r ] and has no second word, after lines
    that include nothing, ends the loader with [IndexError]; no further
    file is opened. *)
Theorem read_requirements_directive_without_name (depth : nat) (w : World)
    (filename text line : string) (before after : list string) :
  files w !! get_path w [filename] = Some text ->
  PyStr.split_on Re.nl (PyStr.strip text) = before ++ line :: after ->
  Forall (fun l => is_directive l = false) before ->
  is_directive line = true ->
  PyStr.split line !! 1 = None ->
  _read_requirements (S depth) w filename
  = ([EvOpen (get_path w [filename])], Raise IndexError).
Proof.
  intros Hf Hlines Hb Hd Hnone.
  rewrite (read_requirements_file _ _ _ _ Hf), Hlines, resolve_lines_app.
  rewrite (resolve_lines_plain _ _ _ Hb), bind_ret_l.
  cbn [resolve_lines]. unfold is_directive in Hd. rewrite Hd.
  unfold getitem. rewrite Hnone. reflexivity.
Qed.

Lemma read_requirements_directive_without_name_witness :
  _read_requirements 1 (with_file "requirements.txt" (unlines ["numpy"; "-r  "; "torch"]) sample_world) "requirements.txt"
  = ([EvOpen "requirements.txt"], Raise IndexError).
Proof.
  apply (read_requirements_directive_without_name 0
           (with_file "requirements.txt" (unlines ["numpy"; "-r  "; "torch"]) sample_world) "requirements.txt" (unlines ["numpy"; "-r  "; "torch"]) "-r  " ["numpy"] ["torch"]); try (vm_compute; reflexivity).
  repeat constructor.
Defined.


(** ** The requirements loader: what every returned list satisfies *)

Lemma split_on_no_sep sep s :
  Forall (fun l => mem_chr sep l = false) (PyStr.split_on sep s).
Proof.
  induction s as [|c s IH]; simpl; [repeat constructor|].
  destruct (PyStr.chr_eqb c sep) eqn:Hc; [constructor; [reflexivity | exact IH]|].
  destruct (PyStr.split_on sep s) as [|w ws]; [repeat constructor; simpl|].
  - rewrite chr_eqb_sym, Hc. reflexivity.
  - apply Forall_cons in IH as [Hw Hws]. constructor; [|exact Hws].
    simpl. rewrite chr_eqb_sym, Hc. exact Hw.
Qed.

Section resolve_lines_invariant.
Variable rec : string -> M (list string).
Variable P : string -> Prop.
Hypothesis rec_P : forall f r, result (rec f) = Ok r -> Forall P r.

(** A property of the lines that include nothing and of the lists that the
    recursive calls return is a property of the list that the loop returns. *)
Lemma resolve_lines_Forall lines acc rs :
  Forall (fun l => is_directive l = false -> P l) lines ->
  Forall P acc ->
  result (resolve_lines rec lines acc) = Ok rs ->
  Forall P rs.
Proof.
  intros Hl. revert acc.
  induction Hl as [|l lines Hl _ IH]; intros acc Hacc; cbn [resolve_lines].
  - intros [= <-]. exact Hacc.
  - unfold is_directive in Hl. destruct (PyStr.startswith l "-r ").
    + rewrite result_bind. destruct (result (getitem _ 1)) as [f| |]; try discriminate.
      rewrite result_bind. destruct (result (rec f)) as [inc| |] eqn:Hf; try discriminate.
      apply IH. apply Forall_app. split; [exact Hacc | exact (rec_P _ _ Hf)].
    + apply IH. apply Forall_app. split; [exact Hacc|]. constructor; auto.
Qed.
End resolve_lines_invariant.

Lemma resolve_lines_nonempty rec lines rs :
  (forall f r, result (rec f) = Ok r -> r <> []) ->
  lines <> [] ->
  result (resolve_lines rec lines []) = Ok rs ->
  rs <> [].
Proof.
  intros Hrec Hne. destruct lines as [|l lines]; [congruence|].
  cbn [resolve_lines]. destruct (PyStr.startswith l "-r ").
  - rewrite result_bind. destruct (result (getitem _ 1)) as [f| |]; try discriminate.
    rewrite result_bind. destruct (result (rec f)) as [inc| |] eqn:Hf; try discriminate.
    rewrite result_resolve_lines_acc.
    destruct (result (resolve_lines rec lines [])) as [r| |]; try discriminate.
    intros [= <-]. pose proof (Hrec _ _ Hf) as Hinc.
    destruct inc; [congruence | discriminate].
  - rewrite result_resolve_lines_acc.
    destruct (result (resolve_lines rec lines [])) as [r| |]; try discriminate.
    intros [= <-]. discriminate.
Qed.

(** X12: a list that the loader returns is never empty. *)
Theorem read_requirements_never_empty (depth : nat) (w : World)
    (filename : string) (rs : list string) :
  result (_read_requirements depth w filename) = Ok rs -> rs <> [].
Proof.
  revert filename rs. induction depth as [|depth IH]; intros filename rs.
  - discriminate.
  - rewrite read_requirements_unfold, result_bind.
    destruct (result (open_read _ _)) as [text| |]; try discriminate.
    apply resolve_lines_nonempty; [exact IH|].
    destruct (split_on_cons Re.nl (PyStr.strip text)) as (l & ls & ->).
    discriminate.
Qed.

Lemma read_requirements_never_empty_witness :
  ["numpy"; "ninja"; "packaging"; ""; "torch"] <> [].
Proof.
  apply (read_requirements_never_empty 2 sample_world "requirements.txt").
  vm_compute. reflexivity.
Defined.

(** X13: every entry of a list that the loader returns is a single line
    (it holds no newline) and is not a directive (it does not start with
    [-r ]): what the directives include replaces them at every depth. *)
Theorem read_requirements_entries (depth : nat) (w : World)
    (filename : string) (rs : list string) :
  result (_read_requirements depth w filename) = Ok rs ->
  Forall (fun r => mem_chr Re.nl r = false /\ is_directive r = false) rs.
Proof.
  revert filename rs. induction depth as [|depth IH]; intros filename rs.
  - discriminate.
  - rewrite read_requirements_unfold, result_bind.
    destruct (result (open_read _ _)) as [text| |]; try discriminate.
    apply (resolve_lines_Forall _ _ IH); [|constructor].
    eapply Forall_impl; [apply (split_on_no_sep Re.nl)|].
    intros l Hl Hd. split; assumption.
Qed.

Lemma read_requirements_entries_witness :
  Forall (fun r => mem_chr Re.nl r = false /\ is_directive r = false)
         ["numpy"; "ninja"; "packaging"; ""; "torch"].
Proof.
  apply (read_requirements_entries 2 sample_world "requirements.txt").
  vm_compute. reflexivity.
Defined.

(** ** The requirements loader: when it returns *)

(** The outcome of the loop, once the recursive calls have an outcome,
    stays when they are given more room. *)
Lemma resolve_lines_settled (rec1 rec2 : string -> M (list string)) lines acc :
  (forall f, result (rec1 f) <> Deeper -> result (rec2 f) = result (rec1 f)) ->
  result (resolve_lines rec1 lines acc) <> Deeper ->
  result (resolve_lines rec2 lines acc) = result (resolve_lines rec1 lines acc).
Proof.
  intros Hrec. revert acc.
  induction lines as [|l lines IH]; intros acc; cbn [resolve_lines]; [reflexivity|].
  destruct (PyStr.startswith l "-r "); [|apply IH].
  rewrite !result_bind. destruct (result (getitem _ 1)) as [f| |]; try reflexivity.
  rewrite !result_bind. intros H.
  assert (Hf : result (rec1 f) <> Deeper).
  { intros E. rewrite E in H. congruence. }
  rewrite (Hrec f Hf). destruct (result (rec1 f)) as [inc| |]; try reflexivity.
  apply IH, H.
Qed.

Lemma read_requirements_settled_S depth w filename :
  result (_read_requirements depth w filename) <> Deeper ->
  result (_read_requirements (S depth) w filename)
  = result (_read_requirements depth w filename).
Proof.
  revert filename. induction depth as [|depth IH]; intros filename.
  - simpl. congruence.
  - rewrite !(read_requirements_unfold _ w filename), !result_bind.
    destruct (result (open_read _ _)); try reflexivity.
    apply resolve_lines_settled. exact IH.
Qed.

Lemma read_requirements_settled_le depth depth' w filename :
  depth <= depth' ->
  result (_read_requirements depth w filename) <> Deeper ->
  result (_read_requirements depth' w filename)
  = result (_read_requirements depth w filename).
Proof.
  intros Hle Hd. induction Hle as [|depth' _ IH]; [reflexivity|].
  rewrite read_requirements_settled_S; rewrite IH; auto.
Qed.

(** X14: what the loader ends with, a list or an exception, does not
    depend on the room it is given for nested calls, as soon as that room
    is enough for the run to end. *)
Theorem read_requirements_settled (depth depth' : nat) (w : World)
    (filename : string) :
  depth <= depth' ->
  result (_read_requirements depth w filename) <> Deeper ->
  result (_read_requirements depth' w filename)
  = result (_read_requirements depth w filename).
Proof.
  intros Hle Hd. induction Hle as [|depth' _ IH]; [reflexivity|].
  rewrite read_requirements_settled_S; rewrite IH; auto.
Qed.

Lemma read_requirements_settled_witness :
  result (_read_requirements 7 sample_world "requirements.txt")
  = result (_read_requirements 2 sample_world "requirements.txt").
Proof.
  apply (read_requirements_settled 2 7 sample_world "requirements.txt").
  - lia.
  - vm_compute. discriminate.
Defined.

Lemma resolve_lines_returns rec lines acc :
  (forall line, line ∈ lines -> is_directive line = true ->
     exists t r, PyStr.split line !! 1 = Some t /\ result (rec t) = Ok r) ->
  exists rs, result (resolve_lines rec lines acc) = Ok rs.
Proof.
  revert acc. induction lines as [|l lines IH]; intros acc Hdir;
    cbn [resolve_lines]; [eexists; reflexivity|].
  assert (Hrest : forall line, line ∈ lines -> is_directive line = true ->
            exists t r, PyStr.split line !! 1 = Some t /\ result (rec t) = Ok r).
  { intros line Hin. apply Hdir. right. exact Hin. }
  destruct (PyStr.startswith l "-r ") eqn:Hd; [|apply IH, Hrest].
  destruct (Hdir l (list_elem_of_here _ _) Hd) as (t & r & Ht & Hr).
  rewrite (result_bind_ok _ _ _ (result_getitem _ _ _ Ht)).
  rewrite (result_bind_ok _ _ _ Hr). apply IH, Hrest.
Qed.

(** X15: when the includes cannot go round in a circle, the loader
    returns.  Precisely: suppose every file can be given a rank such that
    each directive of a file that can be opened names, as its second word,
    a file that can be opened and has a smaller rank.  Then for every file
    that can be opened the loader returns a list, the same for every room
    for nested calls above the rank of the file. *)
Theorem read_requirements_acyclic (w : World) (rank : string -> nat) :
  (forall f text line,
      files w !! get_path w [f] = Some text ->
      line ∈ PyStr.split_on Re.nl (PyStr.strip text) ->
      is_directive line = true ->
      exists t, PyStr.split line !! 1 = Some t
                /\ is_Some (files w !! get_path w [t])
                /\ rank t < rank f) ->
  forall f,
    is_Some (files w !! get_path w [f]) ->
    exists rs, forall depth,
      rank f < depth -> result (_read_requirements depth w f) = Ok rs.
Proof.
  intros Hrank.
  assert (Hbase : forall n f, rank f <= n ->
            is_Some (files w !! get_path w [f]) ->
            exists rs, result (_read_requirements (S (rank f)) w f) = Ok rs).
  { induction n as [|n IH]; intros f Hn [text Hf].
    - rewrite (read_requirements_file _ _ _ _ Hf), result_bind. cbn [result snd].
      apply resolve_lines_returns. intros line Hin Hd.
      destruct (Hrank f text line Hf Hin Hd) as (t & _ & _ & Hlt). lia.
    - rewrite (read_requirements_file _ _ _ _ Hf), result_bind. cbn [result snd].
      apply resolve_lines_returns. intros line Hin Hd.
      destruct (Hrank f text line Hf Hin Hd) as (t & Ht & Hopen & Hlt).
      destruct (IH t ltac:(lia) Hopen) as (r & Hr).
      exists t, r. split; [exact Ht|].
      rewrite (read_requirements_settled_le (S (rank t)) (rank f));
        [exact Hr | lia | rewrite Hr; discriminate]. }
  intros f Hopen. destruct (Hbase (rank f) f (le_n _) Hopen) as (rs & Hrs).
  exists rs. intros depth Hd.
  rewrite (read_requirements_settled_le (S (rank f)) depth);
    [exact Hrs | lia | rewrite Hrs; discriminate].
Qed.

Lemma read_requirements_acyclic_witness :
  exists rs, forall depth,
    1 < depth ->
    result (_read_requirements depth sample_world "requirements.txt") = Ok rs.
Proof.
  refine (read_requirements_acyclic sample_world
            (fun f => if String.eqb f "requirements.txt" then 1 else 0)
            _ "requirements.txt" _).
  - intros f text line Hf Hin Hd.
    assert (Hpath : get_path sample_world [f] = f).
    { unfold get_path, ROOT_DIR, OsPath.join, OsPath.join2. simpl.
      destruct (PyStr.startswith f "/"); reflexivity. }
    rewrite Hpath in Hf. simpl in Hf.
    apply lookup_insert_Some in Hf as [[<- <-]|[_ Hf]].
    { vm_compute in Hin. apply list_elem_of_In in Hin. simpl in Hin.
      destruct Hin as [<-|[]]. discriminate. }
    apply lookup_insert_Some in Hf as [[<- <-]|[_ Hf]].
    { exists "other.txt". vm_compute in Hin.
      apply list_elem_of_In in Hin. simpl in Hin.
      destruct Hin as [<-|[<-|[<-|[<-|[]]]]]; try discriminate.
      split; [reflexivity|]. split; [|simpl; lia].
      exists "ninja
packaging
". vm_compute. reflexivity. }
    apply lookup_singleton_Some in Hf as [<- <-].
    vm_compute in Hin. apply list_elem_of_In in Hin. simpl in Hin.
    destruct Hin as [<-|[<-|[]]]; discriminate.
  - exists "numpy
-r other.txt

torch
". vm_compute. reflexivity.
Defined.


(** ** Where the files are looked for *)

Lemma head_of_no_sep s : mem_chr "/" s = false -> OsPath.head_of s = "".
Proof.
  induction s as [|c s IH]; [reflexivity|]. simpl.
  intros [Hc Hs]%orb_false_iff. rewrite (IH Hs).
  unfold OsPath.sep. rewrite chr_eqb_sym, Hc. reflexivity.
Qed.

Lemma head_of_app dir base :
  mem_chr "/" base = false ->
  OsPath.head_of (dir +:+ String "/" base) = dir +:+ "/".
Proof.
  intros Hb. induction dir as [|c dir IH].
  - change ("" +:+ ?s) with s. simpl. rewrite (head_of_no_sep _ Hb). reflexivity.
  - rewrite !string_app_cons. simpl. rewrite IH.
    destruct dir; reflexivity.
Qed.

Lemma dirname_no_sep s : mem_chr "/" s = false -> OsPath.dirname s = "".
Proof. intros H. unfold OsPath.dirname. rewrite (head_of_no_sep _ H). reflexivity. Qed.

Lemma all_sep_last dir c :
  last_chr dir = Some c -> c <> "/"%char -> OsPath.all_sep (dir +:+ "/") = false.
Proof.
  intros Hl Hc. induction dir as [|d dir IH]; [discriminate|].
  rewrite string_app_cons. simpl. destruct dir as [|d' dir].
  - injection Hl as ->. unfold OsPath.sep.
    destruct (PyStr.chr_eqb c "/") eqn:E; [|reflexivity].
    apply chr_eqb_eq in E. contradiction.
  - rewrite (IH Hl). apply andb_false_r.
Qed.

Lemma rstrip_sep_last dir c :
  last_chr dir = Some c -> c <> "/"%char -> OsPath.rstrip_sep (dir +:+ "/") = dir.
Proof.
  intros Hl Hc. induction dir as [|d dir IH]; [discriminate|].
  rewrite string_app_cons. simpl. destruct dir as [|d' dir].
  - injection Hl as ->. simpl. unfold OsPath.sep.
    destruct (PyStr.chr_eqb c "/") eqn:E; [|reflexivity].
    apply chr_eqb_eq in E. contradiction.
  - rewrite (IH Hl). reflexivity.
Qed.

Lemma dirname_app dir base c :
  mem_chr "/" base = false ->
  last_chr dir = Some c -> c <> "/"%char ->
  OsPath.dirname (dir +:+ String "/" base) = dir.
Proof.
  intros Hb Hl Hc. unfold OsPath.dirname. rewrite (head_of_app _ _ Hb).
  rewrite (all_sep_last _ _ Hl Hc), (rstrip_sep_last _ _ Hl Hc).
  destruct dir; [discriminate | reflexivity].
Qed.

Lemma last_chr_app s t : t <> "" -> last_chr (s +:+ t) = last_chr t.
Proof.
  intros Ht. induction s as [|c s IH]; [reflexivity|].
  rewrite string_app_cons. simpl. rewrite IH.
  destruct (s +:+ t) eqn:E; [|reflexivity].
  destruct s; [|discriminate]. change ("" +:+ t) with t in E. congruence.
Qed.

Lemma endswith_sep_last s c :
  last_chr s = Some c -> c <> "/"%char -> PyStr.endswith s "/" = false.
Proof.
  intros Hl Hc. destruct (PyStr.endswith s "/") eqn:E; [|reflexivity].
  apply endswith_last_chr in E; [|discriminate].
  rewrite Hl in E. injection E as ->. contradiction.
Qed.

(** [os.path.join] of a directory that does not end in a slash and a
    relative name. *)
Lemma join2_relative path name c :
  last_chr path = Some c -> c <> "/"%char ->
  PyStr.startswith name "/" = false ->
  OsPath.join2 path name = path +:+ "/" +:+ name.
Proof.
  intros Hl Hc Hrel. unfold OsPath.join2.
  rewrite Hrel, (endswith_sep_last _ _ Hl Hc).
  destruct path; [discriminate | reflexivity].
Qed.

(** X16: [get_path] looks a name up beside the script.  An absolute name
    is taken as it is; when the script is named without a directory, a name
    is taken as it is, relative to the working directory; and when the
    script is [dir/base], a relative name [name] becomes [dir/name] and the
    version file is [dir/flute/__init__.py]. *)
Theorem get_path_beside_script (w : World) :
  (forall name, PyStr.startswith name "/" = true -> get_path w [name] = name)
  /\ (mem_chr "/" (__file__ w) = false ->
      forall name, get_path w [name] = name)
  /\ (forall dir base c,
        __file__ w = dir +:+ String "/" base ->
        mem_chr "/" base = false ->
        last_chr dir = Some c -> c <> "/"%char ->
        (forall name,
            PyStr.startswith name "/" = false ->
            get_path w [name] = dir +:+ "/" +:+ name)
        /\ get_path w [LIBRARY_NAME; "__init__.py"]
           = dir +:+ "/flute/__init__.py").
Proof.
  split; [|split].
  - intros name Habs. unfold get_path, OsPath.join, OsPath.join2. simpl.
    rewrite Habs. reflexivity.
  - intros Hrel name. unfold get_path, ROOT_DIR.
    rewrite (dirname_no_sep _ Hrel). unfold OsPath.join, OsPath.join2. simpl.
    destruct (PyStr.startswith name "/"); reflexivity.
  - intros dir base c Hfile Hb Hl Hc. unfold get_path, ROOT_DIR.
    rewrite Hfile, (dirname_app _ _ _ Hb Hl Hc). split.
    + intros name Hrel. unfold OsPath.join. simpl.
      apply (join2_relative _ _ c); assumption.
    + unfold OsPath.join. simpl.
      rewrite (join2_relative dir LIBRARY_NAME c) by (assumption || reflexivity).
      rewrite (join2_relative _ "__init__.py" "e"%char);
        [|rewrite last_chr_app by discriminate; reflexivity|discriminate|reflexivity].
      rewrite !string_app_assoc. reflexivity.
Qed.

Lemma get_path_beside_script_witness :
  get_path (with_script "/src/flute/setup.py" sample_world) ["requirements.txt"]
  = "/src/flute" +:+ "/" +:+ "requirements.txt"
  /\ get_path sample_world ["requirements.txt"] = "requirements.txt".
Proof.
  split.
  - apply (proj2 (proj2 (get_path_beside_script
                           (with_script "/src/flute/setup.py" sample_world)))
             "/src/flute" "setup.py" "e"%char); try reflexivity. discriminate.
  - apply (proj1 (proj2 (get_path_beside_script sample_world))). reflexivity.
Defined.

(** ** The call of [setup] *)

Lemma trace_get_extensions w :
  trace (get_extensions w)
  = [EvGlob "flute/csrc/*.cpp"; EvGlob "flute/csrc/*.cu"].
Proof. destruct (get_extensions_run w) as (ext & -> & _). reflexivity. Qed.

(** X17: once [get_version] has returned, the call of [setup] asks for the
    packages, globs the source directory for [.cpp] and for [.cu], and
    reads the requirements, in this order and after everything that
    [get_version] did; it ends as the requirements loader ends, and when
    that returns a list, [setup] receives the name [flute-kernel], the
    version, the packages, the extension descriptor and the list. *)
Theorem setup_call_after_version (depth : nat) (w : World) (v : string) :
  result (get_version w) = Ok v ->
  trace (setup_call depth w)
  = trace (get_version w)
    ++ EvFindPackages :: EvGlob "flute/csrc/*.cpp" :: EvGlob "flute/csrc/*.cu"
       :: trace (get_requirements depth w)
  /\ exists ext,
       result (get_extensions w) = Ok [ext]
       /\ result (setup_call depth w)
          = match result (get_requirements depth w) with
            | Ok requirements =>
                Ok {| name := "flute-kernel";
                      version := v;
                      packages := find_packages w;
                      include_package_data := true;
                      ext_modules := [ext];
                      install_requires := requirements;
                      cmdclass := [("build_ext", "BuildExtension")] |}
            | Raise e => Raise e
            | Deeper => Deeper
            end.
Proof.
  intros Hv. destruct (get_extensions_run w) as (ext & Hrun & _).
  unfold setup_call. split.
  - rewrite trace_bind, Hv, trace_bind. cbn [trace result fst snd mbind M_bind bind emit ret app].
    rewrite trace_bind, Hrun. cbn [trace result fst snd app].
    rewrite trace_bind.
    destruct (result (get_requirements depth w)); cbn [trace fst]; rewrite ?app_nil_r; reflexivity.
  - exists ext. split; [rewrite Hrun; reflexivity|].
    rewrite (result_bind_ok _ _ _ Hv), result_bind.
    cbn [trace result fst snd mbind M_bind bind emit ret app].
    rewrite result_bind, Hrun. cbn [result snd]. rewrite result_bind.
    destruct (result (get_requirements depth w)); reflexivity.
Qed.

Lemma setup_call_after_version_witness :
  trace (setup_call 2 sample_world)
  = [EvOpen "flute/__init__.py"; EvExec ["/usr/local/cuda/bin/nvcc"; "-V"];
     EvFindPackages; EvGlob "flute/csrc/*.cpp"; EvGlob "flute/csrc/*.cu";
     EvOpen "requirements.txt"; EvOpen "other.txt"].
Proof.
  rewrite (proj1 (setup_call_after_version 2 sample_world "1.0.0+cu121torch2.3"
                    ltac:(vm_compute; reflexivity))).
  vm_compute. reflexivity.
Defined.


(** ** The version string: the probe, then the framework *)

(** X18: after the version file has given the base version,
    [get_version] ends with the exception of the probe when the probe ends
    with one; and when the probe returns but the version of the framework
    is no version that [parse] accepts, it raises [InvalidVersion] for that
    text, having opened the version file and launched the compiler. *)
Theorem get_version_probe_then_framework (w : World) (base : string) :
  result (find_version w (get_path w [LIBRARY_NAME; "__init__.py"])) = Ok base ->
  (forall e,
      result (get_nvcc_cuda_version w) = Raise e ->
      result (get_version w) = Raise e)
  /\ (forall home nvcc,
        CUDA_HOME w = Some home ->
        result (get_nvcc_cuda_version w) = Ok nvcc ->
        Packaging.parse (torch_version w) = None ->
        get_version w
        = ([EvOpen (get_path w [LIBRARY_NAME; "__init__.py"]);
            EvExec [OsPath.join home ["bin/nvcc"]; "-V"]],
           Raise (InvalidVersion (torch_version w)))).
Proof.
  intros Hbase. split.
  - intros e He. unfold get_version.
    rewrite (result_bind_ok _ _ _ Hbase), result_bind, He. reflexivity.
  - intros home nvcc Hhome Hnvcc Htorch.
    assert (Ht : trace (get_nvcc_cuda_version w)
                 = [EvExec [OsPath.join home ["bin/nvcc"]; "-V"]]).
    { unfold get_nvcc_cuda_version. rewrite Hhome.
      rewrite trace_bind, trace_run_check_output.
      destruct (result (run_check_output _ _)) as [out| |]; [|reflexivity..].
      destruct (PyStr.index _ _) as [i|]; [|reflexivity].
      rewrite trace_bind, trace_getitem.
      destruct (result (getitem _ _)) as [token| |]; [|reflexivity..].
      rewrite trace_bind, trace_getitem.
      destruct (result (getitem _ _)) as [number| |]; [|reflexivity..].
      rewrite trace_bind, trace_parse.
      destruct (result (parse number)); reflexivity. }
    pose proof (trace_find_version w (get_path w [LIBRARY_NAME; "__init__.py"])) as Hf.
    unfold get_version, parse. rewrite Htorch.
    destruct (find_version w _) as [t1 r1], (get_nvcc_cuda_version w) as [t2 r2].
    simpl in Hbase, Hnvcc, Ht, Hf. subst. reflexivity.
Qed.

Lemma get_version_probe_then_framework_witness :
  get_version (with_torch_version "nightly" sample_world)
  = ([EvOpen "flute/__init__.py"; EvExec ["/usr/local/cuda/bin/nvcc"; "-V"]],
     Raise (InvalidVersion "nightly")).
Proof.
  apply (proj2 (get_version_probe_then_framework
                  (with_torch_version "nightly" sample_world)
                  "1.0.0" ltac:(vm_compute; reflexivity))
           "/usr/local/cuda" (release_version [12%N; 1%N]));
    vm_compute; reflexivity.
Defined.

(** ** The requirements loader: where included files are looked for *)

(** X19: a file that an included file includes is looked for under the
    name its directive gives, beside the script like every other file, not
    beside the file that includes it: when [f] includes [g] and [g]
    includes [h], each after lines that include nothing, the loader opens
    [get_path [f]], [get_path [g]] and [get_path [h]], in this order,
    whatever directory the name [g] lies in. *)
Theorem read_requirements_nested_include (depth : nat) (w : World)
    (f g h text_f text_g : string)
    (before_f after_f before_g after_g : list string) (line_f line_g : string) :
  files w !! get_path w [f] = Some text_f ->
  PyStr.split_on Re.nl (PyStr.strip text_f) = before_f ++ line_f :: after_f ->
  Forall (fun l => is_directive l = false) before_f ->
  is_directive line_f = true -> PyStr.split line_f !! 1 = Some g ->
  files w !! get_path w [g] = Some text_g ->
  PyStr.split_on Re.nl (PyStr.strip text_g) = before_g ++ line_g :: after_g ->
  Forall (fun l => is_directive l = false) before_g ->
  is_directive line_g = true -> PyStr.split line_g !! 1 = Some h ->
  exists rest,
    trace (_read_requirements (S (S (S depth))) w f)
    = EvOpen (get_path w [f]) :: EvOpen (get_path w [g])
      :: EvOpen (get_path w [h]) :: rest.
Proof.
  intros Hf Hlf Hbf Hdf Hg Hfg Hlg Hbg Hdg Hh.
  rewrite (read_requirements_file _ _ _ _ Hf), Hlf, resolve_lines_app.
  rewrite (resolve_lines_plain _ _ _ Hbf), bind_ret_l.
  rewrite (resolve_lines_directive _ _ _ _ _ Hdf Hg).
  rewrite (read_requirements_file _ _ _ _ Hfg), Hlg, resolve_lines_app.
  rewrite (resolve_lines_plain _ _ _ Hbg), bind_ret_l.
  rewrite (resolve_lines_directive _ _ _ _ _ Hdg Hh).
  rewrite (read_requirements_unfold depth w h).
  rewrite !trace_bind, trace_open_read. cbn [trace result fst snd app].
  eexists. reflexivity.
Qed.

Lemma read_requirements_nested_include_witness :
  exists rest,
    trace (_read_requirements 3 nested_include_world "requirements.txt")
    = EvOpen "requirements.txt" :: EvOpen "sub/base.txt"
      :: EvOpen "dev.txt" :: rest.
Proof.
  apply (read_requirements_nested_include 0 nested_include_world
           "requirements.txt" "sub/base.txt" "dev.txt"
           (unlines ["numpy"; "-r sub/base.txt"])
           (unlines ["ninja"; "-r dev.txt"])
           ["numpy"] [] ["ninja"] [] "-r sub/base.txt" "-r dev.txt");
    try (vm_compute; reflexivity); repeat constructor.
Defined.
